(** * GlobalTech sales analysis: the report builder, embedded and verified

    A shallow embedding of [build_globaltech_analysis_final.py]: the
    column-letter helper, the table read from the input file, the pandas
    aggregates, the worksheets with the formulas the script writes, and the
    script itself as a computation over a file system.

    Conventions of the embedding.
    - Amounts are exact rationals ([Q], compared with [==]); binary
      floating-point rounding is not part of the model.
    - A worksheet holds values and formulas; formulas are kept as syntax
      trees carrying the very column letters and row numbers the script
      prints into the formula text, and are given the meaning Excel gives
      them (text criteria are compared for equality).
    - Cell formats, column widths and charts carry no values and are left
      out. *)

From Equations Require Import Equations.
From Equations.Prop Require Import Logic.
From Stdlib Require Import Arith ZArith QArith List String Ascii Bool Lia.
From Stdlib Require Import Sorting.Sorted.
Import ListNotations.
Close Scope Q_scope.
Open Scope string_scope.
Open Scope nat_scope.
Open Scope list_scope.

(* ================================================================== *)
(** * Column letters *)
(* ================================================================== *)

Definition chr (n : nat) : ascii := ascii_of_nat n.
Definition ord (c : ascii) : nat := nat_of_ascii c.

(** The body of [while True:] in [col_idx_to_excel_col]: [divmod] by 26,
    the new letter is put in front, the loop stops when the quotient is 0
    and goes on with the quotient minus one otherwise. *)
Equations? col_loop (idx : nat) (letters : string) : string by wf idx lt :=
  col_loop idx letters with inspect (idx / 26) := {
    | exist _ 0 _ := String (chr (65 + idx mod 26)) letters
    | exist _ (S q) Hq := col_loop q (String (chr (65 + idx mod 26)) letters) }.
Proof.
  change (idx / 26 = S q) in Hq.
  pose proof (Nat.Div0.mul_div_le idx 26) as Hm. rewrite Hq in Hm. lia.
Qed.

Definition col_idx_to_excel_col (idx : nat) : string := col_loop idx "".

(** How a spreadsheet reads a column reference back: letters are the digits
    1..26 of a base-26 numeral, most significant first. *)
Fixpoint col_number (acc : nat) (s : string) : nat :=
  match s with
  | EmptyString => acc
  | String c s' => col_number (acc * 26 + (ord c - 64)) s'
  end.

Definition excel_col_to_idx (s : string) : nat := col_number 0 s - 1.

Definition is_upper (c : ascii) : bool := (65 <=? ord c) && (ord c <=? 90).

Fixpoint all_upper (s : string) : bool :=
  match s with
  | EmptyString => true
  | String c s' => is_upper c && all_upper s'
  end.

(* ================================================================== *)
(** * Tables *)
(* ================================================================== *)

(** A cell of the table pandas reads. The script sums the Sales column and
    groups on text columns: a column it sums holds numbers or NaN, a column
    it groups on holds text or NaN. *)
Inductive cell : Type :=
| NaN                        (* missing value: empty cell, NaN, NaT, pd.NA *)
| Num (q : Q)                (* number *)
| Str (s : string)           (* text *)
| Date (y m d : Z).          (* timestamp; the script reads year and month *)

(** [df.columns] and the rows below the header. Column labels are unique
    in a frame pandas reads from a file (repeated labels are renamed on
    load). *)
Record DataFrame : Type := { columns : list string; data : list (list cell) }.

(** [df.columns.get_loc(name)]. *)
Fixpoint get_loc (name : string) (cols : list string) : option nat :=
  match cols with
  | [] => None
  | c :: cs => if String.eqb c name then Some 0
               else option_map S (get_loc name cs)
  end.

(** [c in df.columns]. *)
Definition has_column (df : DataFrame) (name : string) : bool :=
  match get_loc name (columns df) with Some _ => true | None => false end.

(** The entry of a row under a column; rows shorter than the header read
    as NaN there. *)
Definition at_loc (i : nat) (row : list cell) : cell := nth i row NaN.

(** [df[name]]: the column as a list, top to bottom. *)
Definition series (df : DataFrame) (name : string) : list cell :=
  match get_loc name (columns df) with
  | Some i => map (at_loc i) (data df)
  | None => []
  end.

Fixpoint set_nth (i : nat) (v : cell) (row : list cell) : list cell :=
  match i, row with
  | 0, [] => [v]
  | 0, _ :: r => v :: r
  | S i', [] => NaN :: set_nth i' v []
  | S i', c :: r => c :: set_nth i' v r
  end.

(** [df[name] = f(df[src])] for an element-wise [f]: an existing column is
    overwritten in place, a new one is added at the right end. *)
Definition assign (df : DataFrame) (name src : string) (f : cell -> cell)
  : DataFrame :=
  let from := match get_loc src (columns df) with
              | Some j => fun row => at_loc j row
              | None => fun _ => NaN
              end in
  match get_loc name (columns df) with
  | Some i => {| columns := columns df;
                 data := map (fun row => set_nth i (f (from row)) row) (data df) |}
  | None => {| columns := columns df ++ [name];
               data := map (fun row => set_nth (List.length (columns df)) (f (from row)) row)
                           (data df) |}
  end.

(* ------------------------------------------------------------------ *)
(** ** Series operations *)

Definition isna (c : cell) : bool :=
  match c with NaN => true | _ => false end.

(** [s.dropna()]. *)
Definition dropna (s : list cell) : list cell := filter (fun c => negb (isna c)) s.

(** [s.fillna(v)]. *)
Definition fillna (v : cell) (c : cell) : cell :=
  match c with NaN => v | _ => c end.

(** [s.replace(old, pd.NA)] for a text [old]. *)
Definition replace_na (old : string) (c : cell) : cell :=
  match c with
  | Str s => if String.eqb s old then NaN else c
  | _ => c
  end.

Definition num (c : cell) : Q :=
  match c with Num q => q | _ => 0%Q end.

(** [s.sum()]: NaN is skipped, the empty sum is 0. *)
Definition Qsum (l : list Q) : Q := fold_right Qplus 0%Q l.
Definition series_sum (s : list cell) : Q := Qsum (map num s).

Definition cell_eqb (a b : cell) : bool :=
  match a, b with
  | NaN, NaN => true
  | Num p, Num q => Qeq_bool p q
  | Str s, Str t => String.eqb s t
  | Date y m d, Date y' m' d' => Z.eqb y y' && Z.eqb m m' && Z.eqb d d'
  | _, _ => false
  end.

(** [unique()]: the distinct values in order of first appearance. *)
Fixpoint unique {A : Type} (eqb : A -> A -> bool) (l : list A) : list A :=
  match l with
  | [] => []
  | x :: r => x :: filter (fun y => negb (eqb x y)) (unique eqb r)
  end.

(** [s.nunique()]: NaN is not counted. *)
Definition nunique (s : list cell) : nat := List.length (unique cell_eqb (dropna s)).

(** [sorted(l)] for the order [leb]. *)
Fixpoint insert_sorted {A : Type} (leb : A -> A -> bool) (x : A) (l : list A)
  : list A :=
  match l with
  | [] => [x]
  | y :: r => if leb x y then x :: y :: r else y :: insert_sorted leb x r
  end.

Definition sorted {A : Type} (leb : A -> A -> bool) (l : list A) : list A :=
  fold_right (insert_sorted leb) [] l.

(** The text entries of a column. *)
Fixpoint labels (s : list cell) : list string :=
  match s with
  | [] => []
  | Str t :: r => t :: labels r
  | _ :: r => labels r
  end.

Definition has_label (k : string) (c : cell) : bool :=
  match c with Str s => String.eqb s k | _ => false end.

(** The sum of [values] over the rows whose [keys] entry is the text [k]. *)
Fixpoint sum_where (k : string) (keys values : list cell) : Q :=
  match keys, values with
  | c :: keys', v :: values' =>
      if has_label k c then (num v + sum_where k keys' values')%Q
      else sum_where k keys' values'
  | _, _ => 0%Q
  end.

(** [df.groupby(key)[val].sum()]: one total per distinct non-missing key,
    keys in ascending order. *)
Definition groupby_sum (keys values : list cell) : list (string * Q) :=
  map (fun k => (k, sum_where k keys values))
      (sorted String.leb (unique String.eqb (labels keys))).

(** [.sort_values(ascending=False)]. *)
Definition sort_values_desc (t : list (string * Q)) : list (string * Q) :=
  sorted (fun a b => Qle_bool (snd b) (snd a)) t.

(** [int(x)] on a float: truncation towards zero. *)
Definition py_int (q : Q) : Z := Z.quot (Qnum q) (Zpos (Qden q)).

Fixpoint ints (s : list cell) : list Z :=
  match s with
  | [] => []
  | Num q :: r => py_int q :: ints r
  | _ :: r => ints r
  end.

(* ================================================================== *)
(** * Worksheets and formulas *)
(* ================================================================== *)

(** What a cell shows once the workbook is calculated. *)
Inductive value : Type :=
| VBlank
| VNum (q : Q)
| VText (s : string)
| VDate (y m d : Z)
| VErr.                      (* #DIV/0!, #N/A, ... *)

(** A range of a formula. *)
Inductive range : Type :=
| FullCol (sheet col : string)       (* Data!$F:$F *)
| OwnCells (col : string) (r1 r2 : nat).  (* $B$2:$B$11, rows as printed *)

(** A criterion of SUMIF and SUMIFS. *)
Inductive crit : Type :=
| CritText (s : string)              (* "text", quotes doubled in the text form *)
| CritNum (z : Z)                    (* 2014 *)
| CritRef (col : string) (row : nat).     (* $A3 *)

(** The formulas the script writes. *)
Inductive expr : Type :=
| ENum (q : Q)
| ERef (col : string) (row : nat)             (* B2 *)
| ESum (r : range)                            (* SUM(r) *)
| ECountA (r : range)                         (* COUNTA(r) *)
| ESumIf (cr : range) (c : crit) (sr : range) (* SUMIF(cr,c,sr) *)
| ESumIfs (sr : range) (conds : list (range * crit))  (* SUMIFS(sr,r1,c1,...) *)
| ERank (e : expr) (r : range)                (* RANK(e,r,0) *)
| EDiv (a b : expr)                           (* a/b *)
| ESub (a b : expr)                           (* a-b *)
| EIfError (a b : expr).                      (* IFERROR(a,b) *)

(** A piece of a line of the findings page: literal text or a value the
    f-string formats in place. *)
Inductive frag : Type :=
| Lit (s : string)
| Money (q : Q)              (* {CURRENCY_SYMBOL}{q:,.2f} *)
| Count (n : nat)            (* {n:,} and {n} *)
| Pct (q : Q)                (* {q:.1f}% *)
| YearNo (y : Z).

(** What [write] and [write_formula] store in a cell. *)
Inductive xcell : Type :=
| XBlank
| XNum (q : Q)
| XText (s : string)
| XDate (y m d : Z)
| XFormula (e : expr)
| XLine (l : list frag).

(** A worksheet is the sequence of the writes made to it, oldest first:
    ((row, column), content), rows and columns from 0. *)
Definition worksheet : Type := list (nat * nat * xcell).

Definition hits (r c : nat) (w : nat * nat * xcell) : bool :=
  (fst (fst w) =? r) && (snd (fst w) =? c).

(** The content of a cell: what the last write to it stored, blank if it
    was never written. *)
Definition cell_from (init : xcell) (ws : worksheet) (r c : nat) : xcell :=
  fold_left (fun acc w => if hits r c w then snd w else acc) ws init.

Definition cell_at (ws : worksheet) (r c : nat) : xcell := cell_from XBlank ws r c.

(** [enumerate(l, start)]. *)
Definition enumerate {A : Type} (start : nat) (l : list A) : list (nat * A) :=
  combine (seq start (List.length l)) l.

(** [for i, x in enumerate(l, start): ...] where the body writes cells. *)
Definition write_rows {A : Type} (start : nat) (l : list A)
  (body : nat -> A -> worksheet) : worksheet :=
  flat_map (fun ix => body (fst ix) (snd ix)) (enumerate start l).

(** xlsxwriter stores an empty text as a blank cell. *)
Definition xtext (s : string) : xcell :=
  if String.eqb s "" then XBlank else XText s.

(** The workbook: the frame [to_excel] puts on the Data sheet, and the
    sheets added with [add_worksheet], in order. *)
Record workbook : Type :=
  { wb_data : DataFrame; wb_sheets : list (string * worksheet) }.

Fixpoint get_sheet (name : string) (l : list (string * worksheet)) : worksheet :=
  match l with
  | [] => []
  | (n, ws) :: r => if String.eqb n name then ws else get_sheet name r
  end.

(* ------------------------------------------------------------------ *)
(** ** The Data sheet as Excel sees it *)

(** [df.to_excel(index=False)]: NaN and NaT become blank cells. *)
Definition to_xcell (c : cell) : xcell :=
  match c with
  | NaN => XBlank
  | Num q => XNum q
  | Str s => xtext s
  | Date y m d => XDate y m d
  end.

Definition plain_value (x : xcell) : value :=
  match x with
  | XBlank => VBlank
  | XNum q => VNum q
  | XText s => VText s
  | XDate y m d => VDate y m d
  | XFormula _ => VErr
  | XLine _ => VText ""
  end.

(** What the Data sheet shows for an entry of the frame. *)
Definition shown (c : cell) : value := plain_value (to_xcell c).

(** The cells of column [i] of the Data sheet, header first. *)
Definition data_column (df : DataFrame) (i : nat) : list value :=
  plain_value (xtext (nth i (columns df) "")) ::
  map (fun row => shown (at_loc i row)) (data df).

Definition sheet_data : string := "Data".

(* ------------------------------------------------------------------ *)
(** ** Calculation *)

Definition is_num (v : value) : bool :=
  match v with VNum _ => true | _ => false end.

Definition vnum (v : value) : Q :=
  match v with VNum q => q | _ => 0%Q end.

Definition nonblank (v : value) : bool :=
  match v with VBlank => false | _ => true end.

(** A text criterion selects the cells holding that text, a number
    criterion the cells holding that number. *)
Definition meets (c : value) (v : value) : bool :=
  match c, v with
  | VText s, VText t => String.eqb t s
  | VNum p, VNum q => Qeq_bool q p
  | _, _ => false
  end.

Fixpoint sum_selected (mask : list bool) (vs : list value) : Q :=
  match mask, vs with
  | b :: mask', v :: vs' =>
      if b then (vnum v + sum_selected mask' vs')%Q else sum_selected mask' vs'
  | _, _ => 0%Q
  end.

Fixpoint and_masks (a b : list bool) : list bool :=
  match a, b with
  | x :: a', y :: b' => (x && y) :: and_masks a' b'
  | _, _ => []
  end.

Definition count_greater (x : Q) (vs : list value) : nat :=
  List.length (filter (fun v => is_num v && negb (Qle_bool (vnum v) x)) vs).

Section Calculation.
(** The values of the cells of the sheet the formula is on, and of the
    Data sheet. *)
Variable own : nat -> nat -> value.
Variable data_sheet : DataFrame.

Definition range_values (r : range) : list value :=
  match r with
  | FullCol sheet col =>
      if String.eqb sheet sheet_data
      then data_column data_sheet (excel_col_to_idx col) else []
  | OwnCells col r1 r2 =>
      map (fun r => own (r - 1) (excel_col_to_idx col)) (seq r1 (r2 + 1 - r1))
  end.

Definition crit_value (c : crit) : value :=
  match c with
  | CritText s => VText s
  | CritNum z => VNum (inject_Z z)
  | CritRef col row => own (row - 1) (excel_col_to_idx col)
  end.

Definition mask_of (rc : range * crit) : list bool :=
  map (meets (crit_value (snd rc))) (range_values (fst rc)).

Fixpoint all_masks (conds : list (range * crit)) (n : nat) : list bool :=
  match conds with
  | [] => repeat true n
  | rc :: conds' => and_masks (mask_of rc) (all_masks conds' n)
  end.

Fixpoint eval (e : expr) : value :=
  match e with
  | ENum q => VNum q
  | ERef col row => own (row - 1) (excel_col_to_idx col)
  | ESum r => VNum (Qsum (map vnum (range_values r)))
  | ECountA r => VNum (inject_Z (Z.of_nat (List.length (filter nonblank (range_values r)))))
  | ESumIf cr c sr =>
      VNum (sum_selected (mask_of (cr, c)) (range_values sr))
  | ESumIfs sr conds =>
      VNum (sum_selected (all_masks conds (List.length (range_values sr)))
                         (range_values sr))
  | ERank e' r =>
      match eval e' with
      | VNum x => VNum (inject_Z (Z.of_nat (1 + count_greater x (range_values r))))
      | _ => VErr
      end
  | EDiv a b =>
      match eval a, eval b with
      | VErr, _ | _, VErr => VErr
      | VText _, _ | _, VText _ => VErr
      | x, y => if Qeq_bool (vnum y) 0 then VErr else VNum (vnum x / vnum y)
      end
  | ESub a b =>
      match eval a, eval b with
      | VErr, _ | _, VErr => VErr
      | VText _, _ | _, VText _ => VErr
      | x, y => VNum (vnum x - vnum y)
      end
  | EIfError a b =>
      match eval a with
      | VErr => eval b
      | v => v
      end
  end.
End Calculation.

(** The value of cell (r, c) of a sheet: a formula is calculated from the
    Data sheet and from the cells of its own sheet, themselves calculated
    [depth] levels deep. *)
Fixpoint cell_value (depth : nat) (data_sheet : DataFrame) (ws : worksheet)
  (r c : nat) : value :=
  match cell_at ws r c with
  | XFormula e =>
      match depth with
      | 0 => VErr
      | S d => eval (cell_value d data_sheet ws) data_sheet e
      end
  | x => plain_value x
  end.

(** No formula of the script is more than two references away from the
    Data sheet (RANK and the share read a SUMIF cell). *)
Definition calc (wb : workbook) (sheet : string) (r c : nat) : value :=
  cell_value 2 (wb_data wb) (get_sheet sheet (wb_sheets wb)) r c.

(* ================================================================== *)
(** * The script *)
(* ================================================================== *)

(** ** User configuration *)

Definition INPUT_FILE : string := "GLOBAL DATASET .xlsx".
Definition OUTPUT_FILE : string := "GlobalTech_Sales_Analysis.xlsx".
Definition HIGHLIGHT_MANAGER : string := "Emmanuel".
Definition TOP_N_PRODUCTS : nat := 10.

(** ** Exceptions, files and the script's monad *)

Inductive exn : Type :=
| FileNotFoundError (msg : string)
| ValueError (msg : string)
| IndexError (msg : string)
| KeyError (msg : string).

Inductive file : Type :=
| Dataset (df : DataFrame)       (* a table in a spreadsheet or CSV file *)
| Report (wb : workbook).        (* a workbook this script wrote *)

Inductive event : Type :=
| EvRead (path : string)         (* pandas loads the file *)
| EvOpen (path : string)         (* the ExcelWriter is created *)
| EvSave (path : string)         (* the ExcelWriter is closed: the file is written *)
| EvPrint (msg : string).

(** The files of the working directory, and what the run did so far. *)
Record world : Type :=
  { files : string -> option file; events : list event }.

Definition M (A : Type) : Type := world -> (exn + A) * world.

Definition ret {A : Type} (a : A) : M A := fun w => (inr a, w).

Definition bind {A B : Type} (m : M A) (k : A -> M B) : M B :=
  fun w => match m w with
           | (inl e, w') => (inl e, w')
           | (inr a, w') => k a w'
           end.

Definition raise {A : Type} (e : exn) : M A := fun w => (inl e, w).

Definition lift {A : Type} (r : exn + A) : M A := fun w => (r, w).

Notation "x <- m ;; k" := (bind m (fun x => k))
  (at level 61, m at next level, right associativity).
Notation "m ;;; k" := (bind m (fun _ => k))
  (at level 61, right associativity).

Definition emit (e : event) : M unit :=
  fun w => (inr tt, {| files := files w; events := events w ++ [e] |}).

(** [os.path.exists(path)]. *)
Definition path_exists (path : string) : M bool :=
  fun w => (inr (match files w path with Some _ => true | None => false end), w).

(** What pandas reads back from a cell: a blank cell is NaN. *)
Definition reread (c : cell) : cell :=
  match c with
  | Str s => if String.eqb s "" then NaN else c
  | _ => c
  end.

(** [pd.read_excel(path)] and [pd.read_csv(path)]: the table of the file;
    of a workbook, the table on its first sheet. *)
Definition table_of (f : file) : DataFrame :=
  match f with
  | Dataset df => df
  | Report wb => {| columns := columns (wb_data wb);
                    data := map (map reread) (data (wb_data wb)) |}
  end.

Definition read_table (path : string) : M DataFrame :=
  fun w => match files w path with
           | Some f => (inr (table_of f),
                        {| files := files w; events := events w ++ [EvRead path] |})
           | None => (inl (FileNotFoundError path), w)
           end.

(** Leaving [with pd.ExcelWriter(path) as writer:] closes the writer, which
    writes the file, whether the block ended normally or not. *)
Definition save (path : string) (wb : workbook) : M unit :=
  fun w => (inr tt,
            {| files := fun p => if String.eqb p path then Some (Report wb)
                                 else files w p;
               events := events w ++ [EvSave path] |}).

(** ** Validation *)

Definition required : list string :=
  ["Order Date"; "Category"; "Sub-Category"; "Product Name"; "Manager";
   "Sales"; "Order ID"; "Customer ID"].

Definition missing_column_message (c : string) : string :=
  ("Required column missing from input: '" ++ c ++ "'")%string.

(** [for c in required: if c not in df.columns: raise ValueError(...)]. *)
Fixpoint check_required (df : DataFrame) (req : list string) : M unit :=
  match req with
  | [] => ret tt
  | c :: req' =>
      if has_column df c then check_required df req'
      else raise (ValueError (missing_column_message c))
  end.

Section Script.

(** pandas' reading of a text or a number as a timestamp, [None] for what
    [errors="coerce"] turns into NaT. The parser belongs to pandas: the
    script is verified for every parser. *)
Variable parse_datetime : cell -> option (Z * Z * Z).

(** ** Year and Month columns *)

(** [pd.to_datetime(s, errors="coerce")], element-wise. *)
Definition to_datetime (c : cell) : cell :=
  match c with
  | NaN => NaN
  | Date y m d => Date y m d
  | other => match parse_datetime other with
             | Some (y, m, d) => Date y m d
             | None => NaN
             end
  end.

(** [.dt.year] and [.dt.month]. *)
Definition dt_year (c : cell) : cell :=
  match c with Date y _ _ => Num (inject_Z y) | _ => NaN end.
Definition dt_month (c : cell) : cell :=
  match c with Date _ m _ => Num (inject_Z m) | _ => NaN end.

(** Lines 40 to 45 of the script. *)
Definition prepare (df : DataFrame) : DataFrame :=
  let df := assign df "Order Date" "Order Date" to_datetime in
  let df := assign df "Year" "Order Date" dt_year in
  let df := assign df "Month" "Order Date" dt_month in
  assign df "Manager" "Manager" (fillna (Str "")).

(** ** Aggregates for the findings *)

Definition total_sales_val (df : DataFrame) : Q := series_sum (series df "Sales").
Definition total_orders (df : DataFrame) : nat := nunique (series df "Order ID").
Definition distinct_managers (df : DataFrame) : nat := nunique (series df "Manager").

(** [total_sales_val / total_orders if total_orders else 0]. *)
Definition avg_order_value (df : DataFrame) : Q :=
  if total_orders df =? 0 then 0%Q
  else (total_sales_val df / inject_Z (Z.of_nat (total_orders df)))%Q.

(** [sorted(df["Year"].dropna().unique())]; the Year column holds whole
    numbers, kept here as integers. *)
Definition years (df : DataFrame) : list Z :=
  sorted Z.leb (unique Z.eqb (ints (series df "Year"))).

(** [int(years[0])] and [int(years[-1])]. *)
Definition first_year (df : DataFrame) : exn + Z :=
  match years df with
  | [] => inl (IndexError "list index out of range")
  | y :: _ => inr y
  end.
Definition last_year (df : DataFrame) : exn + Z :=
  match years df with
  | [] => inl (IndexError "list index out of range")
  | y :: r => inr (last r y)
  end.

(** [df.groupby(["Category", "Year"])["Sales"].sum().unstack(fill_value=0)]:
    the row labels, the column labels and the entries. A row of the frame
    enters a group when both its category and its year are present. *)
Definition both_present (cy : cell * cell) : bool :=
  match cy with (Str _, Num _) => true | _ => false end.

Definition cat_year_pairs (df : DataFrame) : list (cell * cell) :=
  filter both_present (combine (series df "Category") (series df "Year")).

Definition cat_sales_by_year_index (df : DataFrame) : list string :=
  sorted String.leb (unique String.eqb (labels (map fst (cat_year_pairs df)))).

Definition cat_sales_by_year_columns (df : DataFrame) : list Z :=
  sorted Z.leb (unique Z.eqb (ints (map snd (cat_year_pairs df)))).

Definition has_year (y : Z) (c : cell) : bool :=
  match c with Num q => Qeq_bool q (inject_Z y) | _ => false end.

Fixpoint sum_where2 (k : string) (y : Z) (cats yrs values : list cell) : Q :=
  match cats, yrs, values with
  | c :: cats', yc :: yrs', v :: values' =>
      if has_label k c && has_year y yc
      then (num v + sum_where2 k y cats' yrs' values')%Q
      else sum_where2 k y cats' yrs' values'
  | _, _, _ => 0%Q
  end.

Definition cat_sales_by_year (df : DataFrame) (k : string) (y : Z) : Q :=
  sum_where2 k y (series df "Category") (series df "Year") (series df "Sales").

(** [cat_sales_by_year.loc[k, y] if y in cat_sales_by_year.columns else 0]. *)
Definition loc_or_zero (df : DataFrame) (k : string) (y : Z) : exn + Q :=
  if existsb (Z.eqb y) (cat_sales_by_year_columns df) then
    if existsb (String.eqb k) (cat_sales_by_year_index df)
    then inr (cat_sales_by_year df k y)
    else inl (KeyError k)
  else inr 0%Q.

Definition cat_totals (df : DataFrame) : list (string * Q) :=
  sort_values_desc (groupby_sum (series df "Category") (series df "Sales")).
Definition mgr_totals (df : DataFrame) : list (string * Q) :=
  sort_values_desc (groupby_sum (series df "Manager") (series df "Sales")).
Definition prod_totals (df : DataFrame) : list (string * Q) :=
  sort_values_desc (groupby_sum (series df "Product Name") (series df "Sales")).

(** [t.index[0] if not t.empty else None]. *)
Definition top_label (t : list (string * Q)) : option string :=
  match t with [] => None | (k, _) :: _ => Some k end.
(** [t.iloc[0] if not t.empty else 0]. *)
Definition top_total (t : list (string * Q)) : Q :=
  match t with [] => 0%Q | (_, v) :: _ => v end.

Definition top_category (df : DataFrame) := top_label (cat_totals df).
Definition top_manager (df : DataFrame) := top_label (mgr_totals df).
Definition top_manager_sales (df : DataFrame) := top_total (mgr_totals df).
Definition top_product (df : DataFrame) := top_label (prod_totals df).

(** [(prod_totals.iloc[0] / total_sales_val) if total_sales_val else 0]. *)
Definition top_product_share (df : DataFrame) : exn + Q :=
  if Qeq_bool (total_sales_val df) 0 then inr 0%Q
  else match prod_totals df with
       | [] => inl (IndexError "single positional indexer is out-of-bounds")
       | (_, v) :: _ => inr (v / total_sales_val df)%Q
       end.

(** The values computed on lines 48 to 70, in the order of the script. *)
Record aggregates : Type :=
  { agg_total_sales : Q;
    agg_total_orders : nat;
    agg_distinct_managers : nat;
    agg_avg_order_value : Q;
    agg_first_year : Z;
    agg_last_year : Z;
    agg_cat_totals : list (string * Q);
    agg_cat_by_year : list (string * list (Z * Q));
    agg_mgr_totals : list (string * Q);
    agg_prod_totals : list (string * Q);
    agg_top_product_share : Q }.

Definition cat_by_year_table (df : DataFrame) : list (string * list (Z * Q)) :=
  map (fun k => (k, map (fun y => (y, cat_sales_by_year df k y))
                        (cat_sales_by_year_columns df)))
      (cat_sales_by_year_index df).

Definition compute_aggregates (df : DataFrame) : exn + aggregates :=
  match first_year df with
  | inl e => inl e
  | inr fy =>
    match last_year df with
    | inl e => inl e
    | inr ly =>
      match top_product_share df with
      | inl e => inl e
      | inr share =>
          inr {| agg_total_sales := total_sales_val df;
                 agg_total_orders := total_orders df;
                 agg_distinct_managers := distinct_managers df;
                 agg_avg_order_value := avg_order_value df;
                 agg_first_year := fy;
                 agg_last_year := ly;
                 agg_cat_totals := cat_totals df;
                 agg_cat_by_year := cat_by_year_table df;
                 agg_mgr_totals := mgr_totals df;
                 agg_prod_totals := prod_totals df;
                 agg_top_product_share := share |}
      end
    end
  end.

(** ** The workbook *)

(** [excel_col_letters[name]]: the letter of the Data column [name]. The
    script looks up the required columns and the Year column it added. *)
Definition excel_col_letters (df : DataFrame) (name : string) : string :=
  match get_loc name (columns df) with
  | Some idx => col_idx_to_excel_col idx
  | None => ""
  end.

Definition data_col (df : DataFrame) (name : string) : range :=
  FullCol sheet_data (excel_col_letters df name).

(** [=SUMIF(Data!$K:$K,"k",Data!$S:$S)] for the key column K and the
    Sales column S. *)
Definition sumif (df : DataFrame) (key_col k : string) : expr :=
  ESumIf (data_col df key_col) (CritText k) (data_col df "Sales").

(** [sorted(df["Manager"].replace("", pd.NA).dropna().unique())]. *)
Definition managers (df : DataFrame) : list string :=
  sorted String.leb
    (unique String.eqb (labels (dropna (map (replace_na "") (series df "Manager"))))).

(** The body of [for r, mgr in enumerate(managers, start=1)], for [n]
    managers: name, SUMIF, the same formula again (a text starting with
    = is stored as a formula), and the rank, where the higher sales get
    rank 1. *)
Definition mgr_row (df : DataFrame) (n r : nat) (mgr : string) : worksheet :=
  let formula := sumif df "Manager" mgr in
  [ (r, 0, xtext mgr);
    (r, 1, XFormula formula);
    (r, 2, XFormula formula);
    (r, 3, XFormula (ERank (ERef "B" (r + 1)) (OwnCells "B" 2 (1 + n)))) ].

(** The Manager Performance sheet, lines 91 to 138; the highlighted
    manager's name and formula are written once more. *)
Definition mgr_sheet (df : DataFrame) : worksheet :=
  let ms := managers df in
  [ (0, 0, xtext "Manager"); (0, 1, xtext "Sales (calc)");
    (0, 2, xtext "Excel Formula"); (0, 3, xtext "Rank") ]
  ++ write_rows 1 ms (mgr_row df (List.length ms))
  ++ match get_loc HIGHLIGHT_MANAGER ms with
     | Some i =>
         let idx := i + 1 in
         [ (idx, 0, xtext HIGHLIGHT_MANAGER);
           (idx, 1, XFormula (sumif df "Manager" HIGHLIGHT_MANAGER)) ]
     | None => []
     end.

(** [sorted(df["Category"].dropna().unique())]. *)
Definition categories (df : DataFrame) : list string :=
  sorted String.leb (unique String.eqb (labels (dropna (series df "Category")))).

Definition znum (z : Z) : xcell := XNum (inject_Z z).

(** [=SUMIFS(Data!$S:$S,Data!$C:$C,c,Data!$Y:$Y,y)]. *)
Definition sumifs_cat_year (df : DataFrame) (c : crit) (y : Z) : expr :=
  ESumIfs (data_col df "Sales")
          [ (data_col df "Category", c); (data_col df "Year", CritNum y) ].

(** The Category Trends sheet, lines 158 to 200: the category by year
    table, and below it the same formulas for the six categories with the
    highest totals ([row_idx] and [src_cell] of lines 191 and 194 are
    computed and not used). *)
Definition cat_sheet (df : DataFrame) : worksheet :=
  let ys := years df in
  let cats := categories df in
  let top_cats := map fst (firstn 6 (cat_totals df)) in
  let start_row := List.length cats + 3 in
  [ (0, 0, xtext "Category \ Year") ]
  ++ write_rows 1 ys (fun j y => [ (0, j, znum y) ])
  ++ write_rows 1 cats (fun i cat =>
       (i, 0, xtext cat) ::
       write_rows 1 ys (fun j y =>
         [ (i, j, XFormula (sumifs_cat_year df (CritRef "A" (i + 1)) y)) ]))
  ++ [ (start_row - 1, 0, xtext "Category") ]
  ++ write_rows 1 ys (fun j y => [ (start_row - 1, j, znum y) ])
  ++ write_rows start_row top_cats (fun i cat =>
       (i, 0, xtext cat) ::
       write_rows 1 ys (fun j y =>
         [ (i, j, XFormula (sumifs_cat_year df (CritText cat) y)) ])).

(** [list(prod_totals.head(TOP_N_PRODUCTS).index)]. *)
Definition prod_list (df : DataFrame) : list string :=
  map fst (firstn TOP_N_PRODUCTS (prod_totals df)).

(** The body of [for i, p in enumerate(prod_list, start=1)], for [n]
    products: name, SUMIF, and [=B{i+1}/SUM($B$2:$B${1+n})]. *)
Definition prod_row (df : DataFrame) (n i : nat) (p : string) : worksheet :=
  [ (i, 0, xtext p);
    (i, 1, XFormula (sumif df "Product Name" p));
    (i, 2, XFormula (EDiv (ERef "B" (i + 1)) (ESum (OwnCells "B" 2 (1 + n))))) ].

(** The Top Products sheet, lines 224 to 233. *)
Definition prod_sheet (df : DataFrame) : worksheet :=
  let ps := prod_list df in
  [ (0, 0, xtext "Product Name"); (0, 1, xtext "Sales (calc)");
    (0, 2, xtext "% of Total") ]
  ++ write_rows 1 ps (prod_row df (List.length ps)).

(** The KPI block of the Dashboard, lines 261 to 308. *)
Definition dash_head (df : DataFrame) : worksheet :=
  let sales := data_col df "Sales" in
  let order_id := data_col df "Order ID" in
  [ (0, 0, xtext "KPI"); (0, 1, xtext "Value");
    (1, 0, xtext "Total Sales (2011-2014)");
    (1, 1, XFormula (ESum sales));
    (2, 0, xtext "Total Orders");
    (2, 1, XFormula (ESub (ECountA order_id) (ENum 1)));
    (3, 0, xtext "Total Managers");
    (3, 1, XNum (inject_Z (Z.of_nat (distinct_managers df))));
    (4, 0, xtext "Average Order Value");
    (4, 1, XFormula (EIfError (EDiv (ESum sales) (ECountA order_id)) (ENum 0)));
    (12, 0, xtext "Year"); (12, 1, xtext "Sales") ].

(** The Dashboard sheet: the KPI block and the yearly totals, lines 309
    to 311. *)
Definition dash_sheet (df : DataFrame) : worksheet :=
  dash_head df
  ++ write_rows 13 (years df) (fun i y =>
       [ (i - 1, 0, znum y);
         (i - 1, 1, XFormula (ESumIfs (data_col df "Sales")
                                      [ (data_col df "Year", CritNum y) ])) ]).

(** [mgr_totals.mean()]. *)
Definition mean (t : list (string * Q)) : Q :=
  (Qsum (map snd t) / inject_Z (Z.of_nat (List.length t)))%Q.

(** A text is true in a condition when it is not empty. *)
Definition truthy (o : option string) : option string :=
  match o with
  | Some s => if String.eqb s "" then None else Some s
  | None => None
  end.

(** The lines of the findings page, lines 329 to 366. *)
Definition summary_lines (df : DataFrame) : list (list frag) :=
  [ [Lit "Executive Summary:"];
    [Lit "- Total Sales (2011-2014): "; Money (total_sales_val df)];
    [Lit "- Total Orders: "; Count (total_orders df)];
    [Lit "- Distinct Managers: "; Count (distinct_managers df)];
    [Lit "- Average Order Value: "; Money (avg_order_value df)];
    [] ].

Definition manager_lines (df : DataFrame) : list (list frag) :=
  match truthy (top_manager df) with
  | Some m =>
      let avg := mean (mgr_totals df) in
      let pct_above_avg :=
        if Qeq_bool avg 0 then 0%Q
        else ((top_manager_sales df - avg) / avg * 100)%Q in
      [ [Lit "Manager Performance:"];
        [Lit "- Top Manager: "; Lit m; Lit " with "; Money (top_manager_sales df);
         Lit " ("; Pct pct_above_avg;
         Lit " above manager average). Consider incentives and capturing their playbook."];
        [] ]
  | None => []
  end.

Definition category_lines (df : DataFrame) (fy ly : Z) : exn + list (list frag) :=
  match truthy (top_category df) with
  | Some k =>
      match loc_or_zero df k fy with
      | inl e => inl e
      | inr first =>
        match loc_or_zero df k ly with
        | inl e => inl e
        | inr last =>
            let yoy_pct :=
              if Qeq_bool first 0 then 0%Q
              else ((last - first) / first * 100)%Q in
            inr [ [Lit "Category Trends:"];
                  [Lit "- Top Category by cumulative sales: "; Lit k;
                   Lit " (consider re-allocating marketing spend toward this category)."];
                  [Lit "- "; Lit k; Lit " sales in "; YearNo fy; Lit ": "; Money first;
                   Lit "; in "; YearNo ly; Lit ": "; Money last; Lit " — change: ";
                   Pct yoy_pct; Lit " between "; YearNo fy; Lit " and "; YearNo ly;
                   Lit "."];
                  [] ]
        end
      end
  | None => inr []
  end.

Definition product_lines (df : DataFrame) (share : Q) : list (list frag) :=
  match truthy (top_product df) with
  | Some p =>
      [ [Lit "Top Product:"];
        [Lit "- Top Product: "; Lit p; Lit " — contributes "; Pct (share * 100)%Q;
         Lit " of total sales. Recommend bundling and heavier advertising."];
        [] ]
  | None => []
  end.

Definition closing_lines : list (list frag) :=
  [ [Lit "Recommendations Framework:"];
    [Lit "- Managerial Performance: implement tiered incentives, targeted training for bottom performers, and consider reassigning managers with consistent underperformance."];
    [Lit "- Category Trends: increase inventory & promotions for high-growth categories; reduce stock for persistently declining categories."];
    [Lit "- Top Product: raise advertising spend, create bundle offers, and monitor stock to avoid stockouts."];
    [];
    [Lit "Notes:"];
    [Lit "- All numeric KPIs in this workbook are live formulas referencing the 'Data' sheet. Editing data in 'Data' will recalc all results and charts."];
    [Lit "- The file is formatted in Naira (₦) by default where currency was not specified in the brief."] ].

Definition findings_lines (df : DataFrame) (agg : aggregates)
  : exn + list (list frag) :=
  match category_lines df (agg_first_year agg) (agg_last_year agg) with
  | inl e => inl e
  | inr cat =>
      inr (summary_lines df ++ manager_lines df ++ cat
           ++ product_lines df (agg_top_product_share agg) ++ closing_lines)
  end.

(** [for i, line in enumerate(lines): ws_find.write(i, 0, line)]. *)
Definition find_sheet (lines : list (list frag)) : worksheet :=
  write_rows 0 lines (fun i line =>
    [ (i, 0, match line with [] => XBlank | _ => XLine line end) ]).

Definition sheet_mgr : string := "Manager Performance".
Definition sheet_cat : string := "Category Trends".
Definition sheet_prod : string := "Top Products".
Definition sheet_dash : string := "Dashboard".
Definition sheet_find : string := "Findings & Recommendations".

(** The body of the [with] block: the workbook as it stands when the
    block is left, and the exception that ended it, if any. *)
Definition build_workbook (df : DataFrame) (agg : aggregates)
  : workbook * option exn :=
  let sheets := [ (sheet_mgr, mgr_sheet df); (sheet_cat, cat_sheet df);
                  (sheet_prod, prod_sheet df); (sheet_dash, dash_sheet df) ] in
  match findings_lines df agg with
  | inl e => ({| wb_data := df; wb_sheets := sheets ++ [ (sheet_find, []) ] |}, Some e)
  | inr lines =>
      ({| wb_data := df;
          wb_sheets := sheets ++ [ (sheet_find, find_sheet lines) ] |}, None)
  end.

Definition file_not_found_message : string :=
  ("Input file '" ++ INPUT_FILE
     ++ "' not found. Put the dataset in same folder or change INPUT_FILE.")%string.

Definition created_message : string :=
  ("Created '" ++ OUTPUT_FILE
     ++ "'. Open this file in Excel to view live formulas, charts, and the dashboard.")%string.

(** The script, top to bottom; its result is the aggregates it holds
    when it ends. [INPUT_FILE] does not end in .csv, so the table is read
    with [read_excel]. *)
Definition main : M aggregates :=
  found <- path_exists INPUT_FILE ;;
  if negb found then raise (FileNotFoundError file_not_found_message)
  else
    df <- read_table INPUT_FILE ;;
    check_required df required ;;;
    let df := prepare df in
    agg <- lift (compute_aggregates df) ;;
    emit (EvOpen OUTPUT_FILE) ;;;
    save OUTPUT_FILE (fst (build_workbook df agg)) ;;;
    match snd (build_workbook df agg) with
    | Some e => raise e
    | None => emit (EvPrint created_message) ;;; ret agg
    end.

End Script.

(* ================================================================== *)
(** * Vocabulary of the statements *)
(* ================================================================== *)

(** The first required column, in the order of the list, that the frame
    does not have. *)
Definition first_missing (df : DataFrame) (req : list string) : option string :=
  find (fun c => negb (has_column df c)) req.

(** The world after the input file was read. *)
Definition loaded (w : world) : world :=
  {| files := files w; events := events w ++ [EvRead INPUT_FILE] |}.

(** What the script does once the table is loaded. *)
Definition after_load (parse : cell -> option (Z * Z * Z)) (df : DataFrame)
  : M aggregates :=
  check_required df required ;;;
  let df := prepare parse df in
  agg <- lift (compute_aggregates df) ;;
  emit (EvOpen OUTPUT_FILE) ;;;
  save OUTPUT_FILE (fst (build_workbook df agg)) ;;;
  match snd (build_workbook df agg) with
  | Some e => raise e
  | None => emit (EvPrint created_message) ;;; ret agg
  end.

(** The result of the script, read off the input file alone. *)
Definition script_result (parse : cell -> option (Z * Z * Z)) (o : option file)
  : exn + aggregates :=
  match o with
  | None => inl (FileNotFoundError file_not_found_message)
  | Some f =>
      match first_missing (table_of f) required with
      | Some c => inl (ValueError (missing_column_message c))
      | None =>
          let df := prepare parse (table_of f) in
          match compute_aggregates df with
          | inl e => inl e
          | inr agg =>
              match snd (build_workbook df agg) with
              | Some e => inl e
              | None => inr agg
              end
          end
      end
  end.

(** The world in which the working directory holds [f] under the input
    name and nothing else, and nothing has happened yet. *)
Definition world_with (f : file) : world :=
  {| files := fun p => if String.eqb p INPUT_FILE then Some f else None;
     events := [] |}.

Definition empty_world : world := {| files := fun _ => None; events := [] |}.

(** The workbook the script leaves in the output file when the working
    directory holds the table [df] under the input name. *)
Definition report (parse : cell -> option (Z * Z * Z)) (df : DataFrame)
  : option workbook :=
  match files (snd (main parse (world_with (Dataset df)))) OUTPUT_FILE with
  | Some (Report wb) => Some wb
  | _ => None
  end.


(** A manager entry that names a manager: a non-empty text. *)
Definition is_named (c : cell) : bool :=
  match c with Str s => negb (String.eqb s "") | _ => false end.


(** No cell of the own sheet is needed to calculate a formula that only
    reads the Data sheet. *)
Definition no_cells : nat -> nat -> value := fun _ _ => VBlank.


(** The place at which [assign] stores the column. *)
Definition assigned_loc (df : DataFrame) (name : string) : nat :=
  match get_loc name (columns df) with
  | Some i => i
  | None => List.length (columns df)
  end.

(* ------------------------------------------------------------------ *)
(** ** Sample inputs *)

(** A parser that reads nothing: every text and number is NaT. *)
Definition no_parse : cell -> option (Z * Z * Z) := fun _ => None.

(** One transaction of the sample tables: every field but the manager,
    the amount, the order and the date is the same. *)
Definition sample_row (date : cell) (manager : cell) (sales : cell) (order : cell)
  : list cell :=
  [ date; Str "Technology"; Str "Phones"; Str "Handset"; manager; sales; order;
    Str "C-1" ].

(** The toy table of the specification: managers A and B with sales 100
    and 200, in one year. *)
Definition toy : DataFrame :=
  {| columns := required;
     data := [ sample_row (Date 2014 3 1) (Str "A") (Num 100) (Str "O-1");
               sample_row (Date 2014 7 9) (Str "B") (Num 200) (Str "O-2") ] |}.

(** A table with a transaction that names no manager. *)
Definition unassigned_sample : DataFrame :=
  {| columns := required;
     data := [ sample_row (Date 2014 3 1) (Str "A") (Num 100) (Str "O-1");
               sample_row (Date 2014 7 9) NaN (Num 50) (Str "O-2") ] |}.

(** A table whose only date cannot be read. *)
Definition undated_sample : DataFrame :=
  {| columns := required;
     data := [ sample_row (Str "not a date") (Str "A") (Num 100) (Str "O-1") ] |}.

(** A table in which one of two dates cannot be read. *)
Definition partly_dated_sample : DataFrame :=
  {| columns := required;
     data := [ sample_row (Str "not a date") (Str "A") (Num 100) (Str "O-1");
               sample_row (Date 2014 7 9) (Str "B") (Num 200) (Str "O-2") ] |}.

(** A table whose best-selling category has no readable date. *)
Definition top_undated_sample : DataFrame :=
  {| columns := required;
     data := [ [Str "not a date"; Str "Technology"; Str "Phones"; Str "Handset";
                Str "A"; Num 1000; Str "O-1"; Str "C-1"];
               [Date 2014 7 9; Str "Furniture"; Str "Chairs"; Str "Stool";
                Str "B"; Num 10; Str "O-2"; Str "C-2"] ] |}.

(** A table with three products, one of them sold twice. *)
Definition products_sample : DataFrame :=
  {| columns := required;
     data := [ [Date 2013 1 5; Str "Technology"; Str "Phones"; Str "Handset";
                Str "A"; Num 100; Str "O-1"; Str "C-1"];
               [Date 2013 2 6; Str "Furniture"; Str "Chairs"; Str "Stool";
                Str "A"; Num 200; Str "O-2"; Str "C-2"];
               [Date 2014 3 7; Str "Office Supplies"; Str "Paper"; Str "Notebook";
                Str "B"; Num 250; Str "O-3"; Str "C-1"];
               [Date 2014 4 8; Str "Furniture"; Str "Chairs"; Str "Stool";
                Str "B"; Num 50; Str "O-3"; Str "C-1"] ] |}.

(** A table that lacks the Sales column. *)
Definition no_sales_sample : DataFrame :=
  {| columns := ["Order Date"; "Category"; "Sub-Category"; "Product Name";
                 "Manager"; "Order ID"; "Customer ID"];
     data := [] |}.

(** A table that lacks the Order Date and the Sales columns. *)
Definition undated_unpriced_sample : DataFrame :=
  {| columns := ["Category"; "Sub-Category"; "Product Name"; "Manager";
                 "Order ID"; "Customer ID"];
     data := [ [Str "Technology"; Str "Phones"; Str "Handset"; Str "A";
                Str "O-1"; Str "C-1"] ] |}.

(* ------------------------------------------------------------------ *)
(** ** Further vocabulary: parts of the sheets and of a run *)

(** The order of [sort_values(ascending=False)] on the totals. *)
Definition by_total_desc (a b : string * Q) : bool := Qle_bool (snd b) (snd a).

(** The totals of a grouped column, best first. *)
Definition ranked (keys values : list cell) : list (string * Q) :=
  sort_values_desc (groupby_sum keys values).

(** [list(cat_totals.head(6).index)]. *)
Definition top_cats (df : DataFrame) : list string :=
  map fst (firstn 6 (cat_totals df)).

(** The row under which the chart table starts. *)
Definition start_row (df : DataFrame) : nat := List.length (categories df) + 3.





(** The text of a manager entry once missing managers are filled in. *)
Definition manager_text (c : cell) : string :=
  match c with Str s => s | _ => "" end.

(** A text that is not empty. *)
Definition nonempty (s : string) : bool := negb (String.eqb s "").

(** The world after the writer was opened and closed on [wb]. *)
Definition written (w : world) (wb : workbook) : world :=
  {| files := fun p => if String.eqb p OUTPUT_FILE then Some (Report wb) else files w p;
     events := (events w ++ [EvOpen OUTPUT_FILE]) ++ [EvSave OUTPUT_FILE] |}.

(* ================================================================== *)
(** * Properties *)
(* ================================================================== *)

(* ------------------------------------------------------------------ *)
(** ** Properties of the column letters *)

Lemma ord_chr_letter r : r < 26 -> ord (chr (65 + r)) = 65 + r.
Proof. intros Hr. unfold ord, chr. apply nat_ascii_embedding. lia. Qed.

Lemma is_upper_letter r : r < 26 -> is_upper (chr (65 + r)) = true.
Proof.
  intros Hr. unfold is_upper. rewrite ord_chr_letter by assumption.
  apply andb_true_intro. split; apply Nat.leb_le; lia.
Qed.

Lemma col_loop_number idx letters :
  col_number 0 (col_loop idx letters) = col_number (idx + 1) letters.
Proof.
  funelim (col_loop idx letters).
  - clear Heqcall. cbn [col_number].
    rewrite ord_chr_letter by (apply Nat.mod_upper_bound; lia).
    f_equal. pose proof (Nat.div_mod_eq idx 26) as Hd. rewrite e in Hd. lia.
  - clear Heqcall.
    match goal with IH : col_number 0 (col_loop _ _) = _ |- _ => rewrite IH end.
    cbn [col_number].
    rewrite ord_chr_letter by (apply Nat.mod_upper_bound; lia).
    f_equal. pose proof (Nat.div_mod_eq idx 26) as Hd. rewrite Hq in Hd. lia.
Qed.

Lemma col_loop_upper idx letters :
  all_upper letters = true -> all_upper (col_loop idx letters) = true.
Proof.
  funelim (col_loop idx letters); intros Hl.
  - cbn [all_upper]. rewrite Hl, is_upper_letter; [reflexivity|].
    apply Nat.mod_upper_bound; lia.
  - clear Heqcall.
    match goal with IH : _ -> all_upper (col_loop _ _) = true |- _ => apply IH end.
    cbn [all_upper]. rewrite Hl, is_upper_letter; [reflexivity|].
    apply Nat.mod_upper_bound; lia.
Qed.

Lemma col_loop_longer idx letters :
  String.length letters < String.length (col_loop idx letters).
Proof.
  funelim (col_loop idx letters).
  - cbn [String.length]. lia.
  - clear Heqcall.
    match goal with IH : _ < String.length (col_loop _ _) |- _ =>
      cbn [String.length] in IH; lia end.
Qed.

Lemma excel_col_roundtrip idx :
  excel_col_to_idx (col_idx_to_excel_col idx) = idx.
Proof.
  unfold excel_col_to_idx, col_idx_to_excel_col.
  rewrite col_loop_number. cbn [col_number]. lia.
Qed.

Lemma col_idx_to_excel_col_inj i j :
  col_idx_to_excel_col i = col_idx_to_excel_col j -> i = j.
Proof.
  intros H. rewrite <- (excel_col_roundtrip i), <- (excel_col_roundtrip j).
  now rewrite H.
Qed.

(** C9. [col_idx_to_excel_col] is total (it is defined by well-founded
    recursion on [idx]) and returns the bijective base-26 column label: a
    non-empty string of letters A..Z whose base-26 value is [idx + 1]; 0, 25,
    26, 701 and 702 give A, Z, AA, ZZ and AAA; two indices with the same
    label are equal. *)
Theorem col_idx_to_excel_col_label :
  (forall idx,
      col_idx_to_excel_col idx <> "" /\
      all_upper (col_idx_to_excel_col idx) = true /\
      col_number 0 (col_idx_to_excel_col idx) = idx + 1) /\
  (col_idx_to_excel_col 0 = "A" /\ col_idx_to_excel_col 25 = "Z" /\
   col_idx_to_excel_col 26 = "AA" /\ col_idx_to_excel_col 701 = "ZZ" /\
   col_idx_to_excel_col 702 = "AAA") /\
  (forall i j, col_idx_to_excel_col i = col_idx_to_excel_col j -> i = j).
Proof.
  split; [|split].
  - intros idx. unfold col_idx_to_excel_col. repeat split.
    + intros H. pose proof (col_loop_longer idx "") as Hl.
      rewrite H in Hl. cbn in Hl. lia.
    + now apply col_loop_upper.
    + now rewrite col_loop_number.
  - repeat split; vm_compute; reflexivity.
  - exact col_idx_to_excel_col_inj.
Qed.

(* ------------------------------------------------------------------ *)
(** ** Frames: columns and assignment *)

Lemma has_column_loc df c :
  has_column df c = true <-> exists i, get_loc c (columns df) = Some i.
Proof.
  unfold has_column. destruct (get_loc c (columns df)) as [i|].
  - split; eauto.
  - split; [discriminate | intros [i H]; discriminate].
Qed.

Lemma get_loc_nth name cols i :
  get_loc name cols = Some i -> i < List.length cols /\ nth i cols "" = name.
Proof.
  revert i. induction cols as [|c cs IH]; intros i; cbn [get_loc].
  - discriminate.
  - destruct (String.eqb_spec c name) as [->|Hne].
    + intros [= <-]. cbn. split; [lia | reflexivity].
    + destruct (get_loc name cs) as [j|]; cbn; [|discriminate].
      intros [= <-]. destruct (IH j eq_refl) as [Hlt Hn]. cbn. split; [lia | exact Hn].
Qed.

Lemma get_loc_app name cols l i :
  get_loc name cols = Some i -> get_loc name (cols ++ l) = Some i.
Proof.
  revert i. induction cols as [|c cs IH]; intros i; cbn [get_loc app].
  - discriminate.
  - destruct (String.eqb c name); [trivial|].
    destruct (get_loc name cs) as [j|]; cbn; [|discriminate].
    intros [= <-]. now rewrite (IH j eq_refl).
Qed.

Lemma get_loc_new name cols :
  get_loc name cols = None -> get_loc name (cols ++ [name]) = Some (List.length cols).
Proof.
  induction cols as [|c cs IH]; cbn [get_loc app List.length].
  - now rewrite String.eqb_refl.
  - destruct (String.eqb c name); [discriminate|].
    destruct (get_loc name cs); cbn; [discriminate|].
    intros _. now rewrite IH.
Qed.

Lemma get_loc_inj a b cols i :
  get_loc a cols = Some i -> get_loc b cols = Some i -> a = b.
Proof.
  intros Ha Hb. apply get_loc_nth in Ha, Hb.
  destruct Ha as [_ <-], Hb as [_ <-]. reflexivity.
Qed.

Lemma at_loc_set_nth_same i v row : at_loc i (set_nth i v row) = v.
Proof.
  unfold at_loc. revert row. induction i as [|i IH]; intros [|c r]; cbn; auto.
Qed.

Lemma at_loc_set_nth_other i j v row :
  i <> j -> at_loc j (set_nth i v row) = at_loc j row.
Proof.
  unfold at_loc. revert j row. induction i as [|i IH]; intros [|j] [|c r] Hne; cbn;
    try congruence; try reflexivity.
  - now destruct j.
  - rewrite IH by congruence. now destruct j.
  - apply IH. congruence.
Qed.

Lemma assign_data df name src f :
  data (assign df name src f) =
  map (fun row => set_nth (assigned_loc df name)
                          (f (match get_loc src (columns df) with
                              | Some j => at_loc j row
                              | None => NaN
                              end)) row) (data df).
Proof.
  unfold assign, assigned_loc.
  destruct (get_loc name (columns df)), (get_loc src (columns df)); reflexivity.
Qed.

Lemma assign_loc_self df name src f :
  get_loc name (columns (assign df name src f)) = Some (assigned_loc df name).
Proof.
  unfold assign, assigned_loc.
  destruct (get_loc name (columns df)) as [i|] eqn:E; cbn [columns].
  - exact E.
  - now apply get_loc_new.
Qed.

Lemma assign_loc_kept df name src f c i :
  get_loc c (columns df) = Some i ->
  get_loc c (columns (assign df name src f)) = Some i.
Proof.
  intros H. unfold assign.
  destruct (get_loc name (columns df)); cbn [columns];
    [exact H | now apply get_loc_app].
Qed.

Lemma assign_has_column df name src f c :
  has_column df c = true -> has_column (assign df name src f) c = true.
Proof.
  rewrite !has_column_loc. intros [i H]. exists i. now apply assign_loc_kept.
Qed.

Lemma series_assign_self df name src f :
  has_column df src = true ->
  series (assign df name src f) name = map f (series df src).
Proof.
  intros Hs. apply has_column_loc in Hs. destruct Hs as [j Hj].
  unfold series at 1. rewrite assign_loc_self, assign_data, Hj, map_map.
  unfold series. rewrite Hj, map_map.
  apply map_ext. intros row. apply at_loc_set_nth_same.
Qed.

Lemma series_assign_other df name src f c :
  c <> name -> has_column df c = true ->
  series (assign df name src f) c = series df c.
Proof.
  intros Hne Hc. apply has_column_loc in Hc. destruct Hc as [i Hi].
  unfold series. rewrite (assign_loc_kept _ name src f _ _ Hi), Hi, assign_data, map_map.
  apply map_ext. intros row. apply at_loc_set_nth_other.
  unfold assigned_loc. destruct (get_loc name (columns df)) as [k|] eqn:Ek.
  - intros ->. apply Hne. symmetry. eapply get_loc_inj; eassumption.
  - apply get_loc_nth in Hi. lia.
Qed.

Section Prepared.
Variable parse : cell -> option (Z * Z * Z).

Lemma prepare_has_column df c :
  has_column df c = true -> has_column (prepare parse df) c = true.
Proof.
  intros H. unfold prepare. now repeat apply assign_has_column.
Qed.

(** The columns the script does not assign come through unchanged. *)
Lemma series_prepare_kept df c :
  has_column df c = true ->
  c <> "Order Date" -> c <> "Year" -> c <> "Month" -> c <> "Manager" ->
  series (prepare parse df) c = series df c.
Proof.
  intros H Hd Hy Hm Hg. unfold prepare.
  rewrite !series_assign_other; auto using assign_has_column.
Qed.

Lemma series_prepare_manager df :
  has_column df "Manager" = true ->
  series (prepare parse df) "Manager" =
  map (fillna (Str "")) (series df "Manager").
Proof.
  intros H. unfold prepare.
  rewrite series_assign_self by auto using assign_has_column.
  rewrite !series_assign_other; auto using assign_has_column; discriminate.
Qed.

Lemma series_prepare_year df :
  has_column df "Order Date" = true ->
  series (prepare parse df) "Year" =
  map (fun c => dt_year (to_datetime parse c)) (series df "Order Date").
Proof.
  intros H. unfold prepare.
  rewrite series_assign_other;
    [| discriminate | auto using assign_has_column].
  2:{ apply assign_has_column. rewrite has_column_loc. eexists.
      apply assign_loc_self. }
  rewrite series_assign_other; [| discriminate |].
  2:{ rewrite has_column_loc. eexists. apply assign_loc_self. }
  rewrite series_assign_self by auto using assign_has_column.
  rewrite series_assign_self by assumption.
  now rewrite map_map.
Qed.

End Prepared.

(* ------------------------------------------------------------------ *)
(** ** Lists: distinct values and sorting *)

Section Sorting.
Context {A : Type} (leb : A -> A -> bool).

Lemma in_insert_sorted x y l : In x (insert_sorted leb y l) <-> x = y \/ In x l.
Proof.
  induction l as [|z l IH]; cbn [insert_sorted].
  - cbn. intuition.
  - destruct (leb y z); cbn [In]; [intuition | rewrite IH; intuition].
Qed.

Lemma in_sorted x l : In x (sorted leb l) <-> In x l.
Proof.
  induction l as [|y l IH]; cbn [sorted fold_right In]; [tauto|].
  fold (sorted leb l). rewrite in_insert_sorted, IH. intuition.
Qed.

Lemma NoDup_insert_sorted y l :
  ~ In y l -> NoDup l -> NoDup (insert_sorted leb y l).
Proof.
  induction l as [|z l IH]; cbn [insert_sorted]; intros Hy Hl.
  - constructor; [tauto | constructor].
  - destruct (leb y z); [now constructor|].
    inversion Hl as [|? ? Hz Hl']; subst. constructor.
    + rewrite in_insert_sorted. cbn in Hy. intuition.
    + apply IH; [cbn in Hy; tauto | assumption].
Qed.

Lemma NoDup_sorted l : NoDup l -> NoDup (sorted leb l).
Proof.
  induction l as [|y l IH]; cbn [sorted fold_right]; intros Hl; [constructor|].
  fold (sorted leb l). inversion Hl; subst.
  apply NoDup_insert_sorted; [rewrite in_sorted; assumption | auto].
Qed.

Lemma length_insert_sorted y l :
  List.length (insert_sorted leb y l) = S (List.length l).
Proof.
  induction l as [|z l IH]; cbn [insert_sorted]; [reflexivity|].
  destruct (leb y z); cbn [List.length]; [reflexivity | now rewrite IH].
Qed.

Lemma length_sorted l : List.length (sorted leb l) = List.length l.
Proof.
  induction l as [|y l IH]; cbn [sorted fold_right]; [reflexivity|].
  fold (sorted leb l). now rewrite length_insert_sorted, IH.
Qed.

Hypothesis leb_total : forall a b, leb a b = true \/ leb b a = true.

Lemma Sorted_insert_sorted y l :
  Sorted (fun a b => leb a b = true) l ->
  Sorted (fun a b => leb a b = true) (insert_sorted leb y l).
Proof.
  induction l as [|z l IH]; cbn [insert_sorted]; intros Hl.
  - repeat constructor.
  - destruct (leb y z) eqn:E.
    + constructor; [assumption | constructor; assumption].
    + inversion Hl as [|? ? Hl' Hhd]; subst. constructor; [auto|].
      destruct l as [|u l]; cbn [insert_sorted].
      * constructor. destruct (leb_total y z); congruence.
      * destruct (leb y u); constructor.
        -- destruct (leb_total y z); congruence.
        -- now inversion Hhd.
Qed.

Lemma Sorted_sorted l : Sorted (fun a b => leb a b = true) (sorted leb l).
Proof.
  induction l as [|y l IH]; cbn [sorted fold_right]; [constructor|].
  now apply Sorted_insert_sorted.
Qed.
End Sorting.

Lemma in_unique_string x l : In x (unique String.eqb l) <-> In x l.
Proof.
  induction l as [|y l IH]; cbn [unique In]; [tauto|].
  rewrite filter_In, IH. split.
  - intuition.
  - intros [->|H]; [now left|].
    destruct (String.eqb_spec y x) as [->|Hne]; [now left|].
    right. split; [assumption | reflexivity].
Qed.

Lemma NoDup_unique_string l : NoDup (unique String.eqb l).
Proof.
  induction l as [|y l IH]; cbn [unique]; constructor.
  - rewrite filter_In. intros [_ H]. now rewrite String.eqb_refl in H.
  - now apply NoDup_filter.
Qed.

Lemma in_labels s l : In s (labels l) <-> In (Str s) l.
Proof.
  induction l as [|c l IH]; cbn [labels In]; [tauto|].
  destruct c; cbn [In]; rewrite IH; intuition (try discriminate; try congruence).
Qed.

Lemma in_dropna c l : In c (dropna l) <-> In c l /\ c <> NaN.
Proof.
  unfold dropna. rewrite filter_In. destruct c; cbn; intuition congruence.
Qed.


(* ------------------------------------------------------------------ *)
(** ** Worksheets: reading back what was written *)

Lemma cell_from_app init l1 l2 r c :
  cell_from init (l1 ++ l2) r c = cell_from (cell_from init l1 r c) l2 r c.
Proof. unfold cell_from. apply fold_left_app. Qed.

Lemma cell_from_untouched init l r c :
  (forall w, In w l -> hits r c w = false) -> cell_from init l r c = init.
Proof.
  revert init. induction l as [|w l IH]; intros init H; [reflexivity|].
  cbn. rewrite (H w) by now left. apply IH. intros w' Hw'. apply H. now right.
Qed.

Lemma hits_other_row r c w : fst (fst w) <> r -> hits r c w = false.
Proof.
  intros H. unfold hits. apply andb_false_intro1. now apply Nat.eqb_neq.
Qed.

Lemma write_rows_cons {A : Type} start (x : A) l body :
  write_rows start (x :: l) body = body start x ++ write_rows (S start) l body.
Proof. reflexivity. Qed.

(** A loop whose body writes the row of its counter: the cell (r, c) holds
    what the iteration for row r stored there. *)
Lemma cell_from_write_rows {A : Type} (d : A) body l :
  (forall i x w, In w (body i x) -> fst (fst w) = i) ->
  forall start init r c,
    cell_from init (write_rows start l body) r c =
    if (start <=? r) && (r <? start + List.length l)
    then cell_from init (body r (nth (r - start) l d)) r c
    else init.
Proof.
  intros Hrow. induction l as [|x l IH]; intros start init r c.
  - change (write_rows start [] body) with (@nil (nat * nat * xcell)).
    cbn [List.length cell_from fold_left].
    destruct ((start <=? r) && (r <? start + 0)) eqn:E; [|reflexivity].
    apply andb_prop in E. destruct E as [E1 E2].
    apply Nat.leb_le in E1. apply Nat.ltb_lt in E2. lia.
  - rewrite write_rows_cons, cell_from_app, IH. cbn [List.length].
    destruct (Nat.eq_dec r start) as [->|Hne].
    + replace (S start <=? start) with false by (symmetry; apply Nat.leb_gt; lia).
      replace (start <=? start) with true by (symmetry; apply Nat.leb_le; lia).
      replace (start <? start + S (List.length l)) with true
        by (symmetry; apply Nat.ltb_lt; lia).
      cbn [andb]. now rewrite Nat.sub_diag.
    + rewrite (cell_from_untouched init (body start x)).
      2:{ intros w Hw. apply hits_other_row. rewrite (Hrow _ _ _ Hw). congruence. }
      destruct (start <=? r) eqn:E1.
      * apply Nat.leb_le in E1.
        replace (S start <=? r) with true by (symmetry; apply Nat.leb_le; lia).
        replace (S start + List.length l) with (start + S (List.length l)) by lia.
        destruct (r <? start + S (List.length l)); cbn [andb]; [|reflexivity].
        replace (r - start) with (S (r - S start)) by lia. reflexivity.
      * apply Nat.leb_gt in E1.
        replace (S start <=? r) with false by (symmetry; apply Nat.leb_gt; lia).
        reflexivity.
Qed.

(* ------------------------------------------------------------------ *)
(** ** Sums of rationals *)

Section Sums.
Local Open Scope Q_scope.

Lemma Qsum_app l1 l2 : Qsum (l1 ++ l2) == Qsum l1 + Qsum l2.
Proof.
  induction l1 as [|x l1 IH]; cbn [Qsum fold_right app].
  - now rewrite Qplus_0_l.
  - fold (Qsum (l1 ++ l2)). fold (Qsum l1). rewrite IH. ring.
Qed.


Lemma Qsum_map_plus {A : Type} (f g : A -> Q) l :
  Qsum (map (fun x => f x + g x) l) == Qsum (map f l) + Qsum (map g l).
Proof.
  induction l as [|x l IH]; cbn [map Qsum fold_right]; [ring|].
  fold (Qsum (map (fun x => f x + g x) l)). fold (Qsum (map f l)).
  fold (Qsum (map g l)). rewrite IH. ring.
Qed.




End Sums.

(* ------------------------------------------------------------------ *)
(** ** Formulas over the Data sheet *)


Lemma data_column_series df name i :
  get_loc name (columns df) = Some i ->
  data_column df i = plain_value (xtext name) :: map shown (series df name).
Proof.
  intros H. unfold data_column, series. rewrite H.
  destruct (get_loc_nth _ _ _ H) as [_ ->]. now rewrite map_map.
Qed.

Lemma range_values_data_col own df name i :
  get_loc name (columns df) = Some i ->
  range_values own df (data_col df name) =
  plain_value (xtext name) :: map shown (series df name).
Proof.
  intros H. unfold data_col, excel_col_letters. rewrite H.
  cbn [range_values]. rewrite String.eqb_refl, excel_col_roundtrip.
  now apply data_column_series.
Qed.

Lemma vnum_shown c : vnum (shown c) = num c.
Proof.
  destruct c as [|q|s|y m d]; try reflexivity.
  unfold shown, to_xcell, xtext. now destruct (String.eqb s "").
Qed.



(** A SUMIF over two Data columns does not look at the sheet it is on. *)
Lemma eval_sumif_own own own' df key_col k :
  eval own df (sumif df key_col k) = eval own' df (sumif df key_col k).
Proof. reflexivity. Qed.

Lemma eval_sumif_num own df key_col k :
  exists q, eval own df (sumif df key_col k) = VNum q.
Proof. eexists. reflexivity. Qed.


(** The value of [=SUM(Data!S:S)]: the sum of the Sales column. *)
Lemma eval_sum_sales own df :
  has_column df "Sales" = true ->
  (vnum (eval own df (ESum (data_col df "Sales"))) == series_sum (series df "Sales"))%Q.
Proof.
  intros Hs. apply has_column_loc in Hs. destruct Hs as [js Hjs].
  cbn [eval vnum]. rewrite (range_values_data_col _ _ _ _ Hjs).
  cbn [map Qsum fold_right]. change (vnum (plain_value (xtext "Sales"))) with 0%Q.
  unfold series_sum. rewrite map_map.
  rewrite (map_ext (fun c => vnum (shown c)) num vnum_shown). 
  fold (Qsum (map num (series df "Sales"))). ring.
Qed.

(* ------------------------------------------------------------------ *)
(** ** Grouped sums add up *)

Section Partition.
Local Open Scope Q_scope.






End Partition.

(* ------------------------------------------------------------------ *)
(** ** The sheets, cell by cell *)





(** The four cells the loop of the Manager Performance sheet writes in
    row [r] for manager [mgr]. *)
Lemma mgr_sheet_row df r c :
  1 <= r <= List.length (managers df) ->
  cell_at (mgr_sheet df) r c =
  cell_from XBlank (mgr_row df (List.length (managers df)) r
                            (nth (r - 1) (managers df) "")) r c.
Proof.
  intros Hr. unfold cell_at, mgr_sheet.
  rewrite !cell_from_app.
  rewrite (cell_from_untouched XBlank).
  2:{ intros w Hw. apply hits_other_row.
      cbn in Hw. intuition (subst; cbn in *; lia). }
  rewrite (cell_from_write_rows "").
  2:{ intros i x w Hw. cbn in Hw. intuition (subst; reflexivity). }
  replace ((1 <=? r) && (r <? 1 + List.length (managers df))) with true.
  2:{ symmetry. apply andb_true_intro. split;
      [apply Nat.leb_le | apply Nat.ltb_lt]; lia. }
  destruct (get_loc HIGHLIGHT_MANAGER (managers df)) as [i|] eqn:E; [|reflexivity].
  destruct (get_loc_nth _ _ _ E) as [Hi Hnth].
  destruct (Nat.eq_dec r (i + 1)) as [->|Hne].
  - replace (i + 1 - 1) with i by lia. rewrite Hnth.
    unfold mgr_row, cell_from, hits. cbn [fold_left fst snd].
    rewrite !Nat.eqb_refl. cbn [andb].
    destruct c as [|[|[|[|c]]]]; reflexivity.
  - apply cell_from_untouched. intros w Hw. apply hits_other_row.
    cbn in Hw. intuition (subst; cbn in *; lia).
Qed.


Lemma mgr_sheet_sales df r :
  1 <= r <= List.length (managers df) ->
  cell_at (mgr_sheet df) r 1 =
  XFormula (sumif df "Manager" (nth (r - 1) (managers df) "")).
Proof.
  intros Hr. rewrite mgr_sheet_row by assumption.
  unfold mgr_row, cell_from, hits. cbn [fold_left fst snd].
  rewrite !Nat.eqb_refl. reflexivity.
Qed.

Lemma mgr_sheet_rank df r :
  1 <= r <= List.length (managers df) ->
  cell_at (mgr_sheet df) r 3 =
  XFormula (ERank (ERef "B" (r + 1)) (OwnCells "B" 2 (1 + List.length (managers df)))).
Proof.
  intros Hr. rewrite mgr_sheet_row by assumption.
  unfold mgr_row, cell_from, hits. cbn [fold_left fst snd].
  rewrite !Nat.eqb_refl. reflexivity.
Qed.





Lemma dash_sheet_fixed df r c :
  r < 12 ->
  cell_at (dash_sheet df) r c = cell_at (dash_head df) r c.
Proof.
  intros Hr. unfold cell_at, dash_sheet. rewrite cell_from_app.
  apply cell_from_untouched. intros w Hw. apply hits_other_row.
  unfold write_rows, enumerate in Hw. apply in_flat_map in Hw.
  destruct Hw as [[i y] [Hin Hw]]. apply in_combine_l, in_seq in Hin.
  cbn in Hw. intuition (subst; cbn in *; lia).
Qed.

(** The sheets of the workbook the script builds. *)
Lemma build_workbook_sheets df agg :
  wb_data (fst (build_workbook df agg)) = df /\
  get_sheet sheet_mgr (wb_sheets (fst (build_workbook df agg))) = mgr_sheet df /\
  get_sheet sheet_prod (wb_sheets (fst (build_workbook df agg))) = prod_sheet df /\
  get_sheet sheet_dash (wb_sheets (fst (build_workbook df agg))) = dash_sheet df.
Proof.
  unfold build_workbook. destruct (findings_lines df agg); repeat split.
Qed.

Lemma calc_mgr df agg r c :
  calc (fst (build_workbook df agg)) sheet_mgr r c = cell_value 2 df (mgr_sheet df) r c.
Proof.
  unfold calc. destruct (build_workbook_sheets df agg) as [-> [-> _]]. reflexivity.
Qed.


Lemma calc_dash df agg r c :
  calc (fst (build_workbook df agg)) sheet_dash r c = cell_value 2 df (dash_sheet df) r c.
Proof.
  unfold calc. destruct (build_workbook_sheets df agg) as [-> [_ [_ ->]]]. reflexivity.
Qed.

(** Calculation, one level at a time. *)
Lemma cell_value_S d df ws r c :
  cell_value (S d) df ws r c =
  match cell_at ws r c with
  | XFormula e => eval (cell_value d df ws) df e
  | x => plain_value x
  end.
Proof. reflexivity. Qed.

Lemma own_cells_B own df n :
  range_values own df (OwnCells "B" 2 (1 + n)) =
  map (fun r => own r 1) (seq 1 n).
Proof.
  cbn [range_values]. change (excel_col_to_idx "B") with 1.
  replace (1 + n + 1 - 2) with n by lia.
  rewrite <- (seq_shift n 1), map_map. apply map_ext. intros r.
  now rewrite Nat.sub_1_r.
Qed.

Lemma mgr_sales_value df d r :
  1 <= r <= List.length (managers df) ->
  cell_value (S d) df (mgr_sheet df) r 1 =
  eval no_cells df (sumif df "Manager" (nth (r - 1) (managers df) "")).
Proof.
  intros Hr. cbn [cell_value]. now rewrite mgr_sheet_sales.
Qed.

(* ------------------------------------------------------------------ *)
(** ** The script as a function of the input file *)

Section ScriptRuns.
Variable parse : cell -> option (Z * Z * Z).

Lemma check_required_first_missing df req w :
  check_required df req w =
  match first_missing df req with
  | Some c => (inl (ValueError (missing_column_message c)), w)
  | None => (inr tt, w)
  end.
Proof.
  induction req as [|c req IH]; cbn [check_required first_missing find].
  - reflexivity.
  - destruct (has_column df c); cbn [negb]; [exact IH | reflexivity].
Qed.

Lemma main_missing w :
  files w INPUT_FILE = None ->
  main parse w = (inl (FileNotFoundError file_not_found_message), w).
Proof.
  intros H. unfold main, bind, path_exists. rewrite H. reflexivity.
Qed.

Lemma main_loaded w f :
  files w INPUT_FILE = Some f ->
  main parse w =
  after_load parse (table_of f) (loaded w).
Proof.
  intros H. unfold main, bind at 1, path_exists. rewrite H. cbn [negb].
  unfold bind at 1, read_table. rewrite H. reflexivity.
Qed.

Lemma after_load_result df w :
  fst (after_load parse df w) = script_result parse (Some (Dataset df)).
Proof.
  unfold after_load, script_result, bind, table_of.
  rewrite check_required_first_missing.
  destruct (first_missing df required); [reflexivity|].
  unfold lift. destruct (compute_aggregates (prepare parse df)) as [e|agg];
    [reflexivity|].
  cbn [emit save].
  destruct (snd (build_workbook (prepare parse df) agg)); reflexivity.
Qed.

Lemma main_result w : fst (main parse w) = script_result parse (files w INPUT_FILE).
Proof.
  destruct (files w INPUT_FILE) as [f|] eqn:H.
  - rewrite (main_loaded _ _ H), after_load_result. reflexivity.
  - rewrite (main_missing _ H). reflexivity.
Qed.

Lemma first_missing_spec df req c :
  first_missing df req = Some c ->
  In c req /\ has_column df c = false.
Proof.
  intros H. apply find_some in H. destruct H as [Hin Hc].
  split; [assumption|]. now apply negb_true_iff in Hc.
Qed.

Lemma first_missing_exists df req c :
  In c req -> has_column df c = false ->
  exists c', first_missing df req = Some c'.
Proof.
  intros Hin Hc. destruct (first_missing df req) as [c'|] eqn:E; [eauto|].
  pose proof (find_none _ _ E c Hin) as Hn. cbn in Hn.
  rewrite Hc in Hn. discriminate.
Qed.

Lemma after_load_missing df w c :
  first_missing df required = Some c ->
  after_load parse df w = (inl (ValueError (missing_column_message c)), w).
Proof.
  intros H. unfold after_load, bind. rewrite check_required_first_missing, H.
  reflexivity.
Qed.

(** C8. When the input file does not exist the script raises
    FileNotFoundError with its message and leaves the world as it was:
    no file is read (nothing is loaded, so nothing is aggregated), no
    writer is opened and no file is written. *)
Theorem missing_input_file_is_fatal w :
  files w INPUT_FILE = None ->
  main parse w = (inl (FileNotFoundError file_not_found_message), w) /\
  events (snd (main parse w)) = events w /\
  files (snd (main parse w)) = files w.
Proof.
  intros H. rewrite (main_missing _ H). repeat split.
Qed.

Lemma first_missing_at df l1 c l2 :
  (forall c', In c' l1 -> has_column df c' = true) ->
  has_column df c = false ->
  first_missing df (l1 ++ c :: l2) = Some c.
Proof.
  intros Hl1 Hc. unfold first_missing.
  induction l1 as [|x l1 IH]; cbn [app find].
  - now rewrite Hc.
  - rewrite (Hl1 x) by now left. cbn [negb]. apply IH.
    intros c' Hc'. apply Hl1. now right.
Qed.

(** C2, amended. When a required column is absent from the header of the
    loaded table, the script raises ValueError and writes no file (it has
    only read the input); the message names the first required column, in
    the order of the list, that is absent: the column itself whenever the
    required columns listed before it are all present. *)
Theorem missing_column_is_fatal w f c :
  files w INPUT_FILE = Some f ->
  In c required ->
  has_column (table_of f) c = false ->
  exists c',
    first_missing (table_of f) required = Some c' /\
    main parse w = (inl (ValueError (missing_column_message c')), loaded w) /\
    files (snd (main parse w)) = files w /\
    (forall before after,
        required = before ++ c :: after ->
        (forall c'', In c'' before -> has_column (table_of f) c'' = true) ->
        c' = c).
Proof.
  intros Hf Hin Hc.
  destruct (first_missing_exists _ _ _ Hin Hc) as [c' Hc'].
  exists c'. rewrite (main_loaded _ _ Hf), (after_load_missing _ _ _ Hc').
  repeat split; [assumption|].
  intros before after Hreq Hbefore.
  rewrite Hreq, (first_missing_at _ _ _ _ Hbefore Hc) in Hc'. congruence.
Qed.

(** C7. The result of the script (the exception it raises, or the
    aggregates it ends with) is a function of the content of the input
    file: two worlds that agree on that file, whatever else they hold and
    whatever happened in them before, give the same result. *)
Theorem main_deterministic w w' :
  files w INPUT_FILE = files w' INPUT_FILE ->
  fst (main parse w) = fst (main parse w').
Proof.
  intros H. rewrite !main_result, H. reflexivity.
Qed.

(** A run leaves the input file as it found it. *)
Lemma main_keeps_input w :
  files (snd (main parse w)) INPUT_FILE = files w INPUT_FILE.
Proof.
  destruct (files w INPUT_FILE) as [f|] eqn:H.
  - rewrite (main_loaded _ _ H). unfold after_load, bind.
    rewrite check_required_first_missing.
    destruct (first_missing (table_of f) required); [exact H|].
    unfold lift.
    destruct (compute_aggregates (prepare parse (table_of f))); [exact H|].
    cbn [emit save].
    destruct (snd (build_workbook _ _)); cbn; exact H.
  - rewrite (main_missing _ H). exact H.
Qed.

End ScriptRuns.

(* ------------------------------------------------------------------ *)
(** ** The report of a run *)

Section Reports.
Variable parse : cell -> option (Z * Z * Z).

Lemma first_missing_none df c :
  first_missing df required = None -> In c required -> has_column df c = true.
Proof.
  intros H Hin. pose proof (find_none _ _ H c Hin) as Hn. cbn in Hn.
  now apply negb_false_iff in Hn.
Qed.

(** A report is written only when the required columns are there and the
    aggregates could be computed; it is the workbook built from the
    prepared table. *)
Lemma report_inv df wb :
  report parse df = Some wb ->
  first_missing df required = None /\
  exists agg, wb = fst (build_workbook (prepare parse df) agg).
Proof.
  unfold report. rewrite (main_loaded parse _ (Dataset df)) by reflexivity.
  unfold after_load, bind. rewrite check_required_first_missing. cbn [table_of].
  destruct (first_missing df required) eqn:Em; [discriminate|].
  unfold lift. destruct (compute_aggregates (prepare parse df)) as [e|agg];
    [discriminate|].
  intros H. split; [reflexivity|]. exists agg.
  cbn [emit save] in H.
  destruct (snd (build_workbook (prepare parse df) agg)); cbn in H; congruence.
Qed.

Lemma report_data df wb :
  report parse df = Some wb -> wb_data wb = prepare parse df.
Proof.
  intros H. apply report_inv in H. destruct H as [_ [agg ->]].
  apply build_workbook_sheets.
Qed.

End Reports.

(* ------------------------------------------------------------------ *)
(** ** The Manager Performance sheet and the Total Sales KPI *)

Section Managers.
Variable parse : cell -> option (Z * Z * Z).
Local Open Scope Q_scope.



Lemma report_columns df wb :
  report parse df = Some wb ->
  has_column df "Manager" = true /\ has_column df "Sales" = true.
Proof.
  intros H. apply report_inv in H. destruct H as [Hm _].
  split; apply (first_missing_none _ _ Hm); cbn; tauto.
Qed.





End Managers.

(* ------------------------------------------------------------------ *)
(** ** Ranks *)

(** The Rank cell of a manager shows one more than the number of managers
    on the sheet whose SUMIF value is strictly greater: the highest sales
    get rank 1. *)
Lemma mgr_rank_value df r :
  1 <= r <= List.length (managers df) ->
  cell_value 2 df (mgr_sheet df) r 3 =
  VNum (inject_Z (Z.of_nat
    (1 + count_greater (vnum (cell_value 2 df (mgr_sheet df) r 1))
           (map (fun i => cell_value 2 df (mgr_sheet df) i 1)
                (seq 1 (List.length (managers df))))))).
Proof.
  intros Hr.
  rewrite (map_ext_in _ (fun i => cell_value 1 df (mgr_sheet df) i 1)).
  2:{ intros i Hi. apply in_seq in Hi. now rewrite !mgr_sales_value by lia. }
  rewrite (mgr_sales_value df 1), <- (mgr_sales_value df 0) by assumption.
  rewrite (cell_value_S 1 df (mgr_sheet df) r 3).
  rewrite mgr_sheet_rank by assumption.
  cbn [eval]. rewrite own_cells_B.
  change (excel_col_to_idx "B") with 1.
  replace (r + 1 - 1) with r by lia.
  destruct (eval_sumif_num no_cells df "Manager" (nth (r - 1) (managers df) ""))
    as [q Hq].
  rewrite (mgr_sales_value df 0), Hq by assumption. reflexivity.
Qed.

(* ------------------------------------------------------------------ *)
(** ** The Top Products sheet *)

Section TopProducts.
Variable parse : cell -> option (Z * Z * Z).
Local Open Scope Q_scope.




End TopProducts.

(* ------------------------------------------------------------------ *)
(** ** The average order value, on the findings page and on the Dashboard *)

Section Average.
Local Open Scope Q_scope.

(** The value of line 51 of the script. *)
Lemma avg_order_value_spec df :
  (total_orders df = 0%nat -> avg_order_value df = 0) /\
  (total_orders df <> 0%nat ->
   avg_order_value df = total_sales_val df / inject_Z (Z.of_nat (total_orders df))).
Proof.
  unfold avg_order_value. split; intros H.
  - now rewrite H.
  - apply Nat.eqb_neq in H. now rewrite H.
Qed.

(** The findings page prints that value. *)
Lemma findings_average_line df :
  nth 4 (summary_lines df) [] =
  [Lit "- Average Order Value: "; Money (avg_order_value df)].
Proof. reflexivity. Qed.

(** The Dashboard cell divides the Sales total by the number of
    non-empty cells of the whole Order ID column, its header included:
    one more than the number of rows with an order identifier, whether
    or not identifiers repeat. *)
Lemma dash_average_value df :
  has_column df "Sales" = true -> has_column df "Order ID" = true ->
  is_num (cell_value 2 df (dash_sheet df) 4 1) = true /\
  vnum (cell_value 2 df (dash_sheet df) 4 1) ==
  series_sum (series df "Sales")
  / inject_Z (Z.of_nat (1 + List.length
                              (filter nonblank (map shown (series df "Order ID"))))).
Proof.
  intros Hs Ho. pose proof (eval_sum_sales (cell_value 1 df (dash_sheet df)) df Hs) as Hsum.
  apply has_column_loc in Ho. destruct Ho as [io Hio].
  cbn [cell_value]. rewrite dash_sheet_fixed by lia.
  change (cell_at (dash_head df) 4 1) with
    (XFormula (EIfError (EDiv (ESum (data_col df "Sales"))
                              (ECountA (data_col df "Order ID"))) (ENum 0))).
  cbn [eval] in Hsum |- *. cbn [vnum] in Hsum |- *.
  rewrite (range_values_data_col _ _ _ _ Hio).
  change (plain_value (xtext "Order ID")) with (VText "Order ID").
  cbn [filter nonblank List.length].
  set (n := List.length (filter nonblank (map shown (series df "Order ID")))).
  assert (Hn : Qeq_bool (inject_Z (Z.of_nat (S n))) 0 = false).
  { destruct (Qeq_bool _ 0) eqn:E; [|reflexivity].
    apply Qeq_bool_iff in E. unfold Qeq in E. cbn in E. lia. }
  rewrite Hn. cbn [is_num vnum]. split; [reflexivity|].
  now rewrite Hsum.
Qed.

End Average.

(* ------------------------------------------------------------------ *)
(** ** Dates that cannot be read *)

Section Dates.
Variable parse : cell -> option (Z * Z * Z).

Lemma ints_all_nan (l : list cell) :
  (forall c, In c l -> c = NaN) -> ints l = [].
Proof.
  induction l as [|c l IH]; intros H; [reflexivity|].
  rewrite (H c) by now left. cbn [ints]. apply IH.
  intros c' Hc'. apply H. now right.
Qed.

Lemma years_unreadable df :
  has_column df "Order Date" = true ->
  (forall c, In c (series df "Order Date") -> to_datetime parse c = NaN) ->
  years (prepare parse df) = [].
Proof.
  intros Hd Hall. unfold years. rewrite series_prepare_year by assumption.
  rewrite ints_all_nan; [reflexivity|].
  intros c Hc. apply in_map_iff in Hc. destruct Hc as [c0 [<- Hin]].
  now rewrite (Hall c0 Hin).
Qed.

(** C4, the failing case. When the required columns are there but no
    entry of the Order Date column can be read as a date, the script
    raises IndexError at [years[0]] and writes no file, where the
    specification has such dates coerced silently and the run completed
    with its output file. *)
Theorem unreadable_dates_raise w f :
  files w INPUT_FILE = Some f ->
  first_missing (table_of f) required = None ->
  (forall c, In c (series (table_of f) "Order Date") -> to_datetime parse c = NaN) ->
  main parse w = (inl (IndexError "list index out of range"), loaded w).
Proof.
  intros Hf Hreq Hall. rewrite (main_loaded _ _ _ Hf).
  unfold after_load, bind. rewrite check_required_first_missing, Hreq.
  unfold lift, compute_aggregates, first_year.
  rewrite years_unreadable; [reflexivity | | assumption].
  apply (first_missing_none _ _ Hreq). cbn. tauto.
Qed.

End Dates.

(* ------------------------------------------------------------------ *)
(** ** Sample runs *)

(** C6. For the toy table (managers A and B with sales 100 and 200, one
    year) the Manager Performance sheet lists A with rank 2 and B with rank
    1 and nothing else, and the Total Sales KPI of the Dashboard shows
    300. *)
Theorem toy_ranks_and_total parse :
  exists wb,
    report parse toy = Some wb /\
    calc wb sheet_mgr 1 0 = VText "A" /\ calc wb sheet_mgr 1 1 = VNum 100 /\
    calc wb sheet_mgr 1 3 = VNum 2 /\
    calc wb sheet_mgr 2 0 = VText "B" /\ calc wb sheet_mgr 2 1 = VNum 200 /\
    calc wb sheet_mgr 2 3 = VNum 1 /\
    calc wb sheet_mgr 3 0 = VBlank /\
    calc wb sheet_dash 1 1 = VNum 300.
Proof.
  eexists. split; [vm_compute; reflexivity|].
  repeat split; vm_compute; reflexivity.
Qed.

(** C3, the failing case. For the toy table (two orders, total sales 300)
    the findings page reports an average order value of 300/2 = 150, while
    the Dashboard formula [IFERROR(SUM(sales)/COUNTA(order ids),0)] counts
    the header cell of the Order ID column as well and shows 300/3 = 100. *)
Theorem dashboard_average_counts_header parse :
  exists wb,
    report parse toy = Some wb /\
    total_orders (wb_data wb) = 2 /\
    (avg_order_value (wb_data wb) == 150)%Q /\
    cell_at (get_sheet sheet_find (wb_sheets wb)) 4 0 =
      XLine [Lit "- Average Order Value: "; Money (avg_order_value (wb_data wb))] /\
    calc wb sheet_dash 2 1 = VNum 2 /\
    is_num (calc wb sheet_dash 4 1) = true /\
    (vnum (calc wb sheet_dash 4 1) == 100)%Q.
Proof.
  eexists. split; [vm_compute; reflexivity|].
  repeat split; vm_compute; reflexivity.
Qed.

(** An unreadable date among readable ones is coerced silently: the run
    completes, the row has no year, and its sales stay in the totals. *)
Lemma partly_unreadable_dates_complete :
  exists wb agg,
    main no_parse (world_with (Dataset partly_dated_sample)) =
      (inr agg,
       {| files := fun p => if String.eqb p OUTPUT_FILE then Some (Report wb)
                            else files (world_with (Dataset partly_dated_sample)) p;
          events := [EvRead INPUT_FILE; EvOpen OUTPUT_FILE; EvSave OUTPUT_FILE;
                     EvPrint created_message] |}) /\
    series (wb_data wb) "Year" = [NaN; Num 2014] /\
    (agg_total_sales agg == 300)%Q.
Proof.
  eexists. eexists. split; [vm_compute; reflexivity|].
  split; vm_compute; reflexivity.
Qed.

(** When the dates of the category with the highest sales cannot be read,
    that category has no row in the category by year table and
    [cat_sales_by_year.loc[top_category, first_year]] raises KeyError inside
    the [with] block: the workbook is saved without its findings and the
    script ends with the exception. *)
Lemma unreadable_dates_of_top_category_raise :
  exists wb,
    main no_parse (world_with (Dataset top_undated_sample)) =
      (inl (KeyError "Technology"),
       {| files := fun p => if String.eqb p OUTPUT_FILE then Some (Report wb)
                            else files (world_with (Dataset top_undated_sample)) p;
          events := [EvRead INPUT_FILE; EvOpen OUTPUT_FILE; EvSave OUTPUT_FILE] |}) /\
    get_sheet sheet_find (wb_sheets wb) = [].
Proof.
  eexists. split; vm_compute; reflexivity.
Qed.


(** C2 as stated fails where an earlier required column is absent too: a
    table that lacks both Order Date and Sales lacks Sales, and the error
    names Order Date only. *)
Lemma missing_sales_not_named :
  In "Sales" required /\
  has_column undated_unpriced_sample "Sales" = false /\
  fst (main no_parse (world_with (Dataset undated_unpriced_sample))) =
    inl (ValueError "Required column missing from input: 'Order Date'") /\
  fst (main no_parse (world_with (Dataset undated_unpriced_sample))) <>
    inl (ValueError (missing_column_message "Sales")).
Proof.
  split; [cbn; tauto|]. split; [reflexivity|]. split; [reflexivity|].
  vm_compute. discriminate.
Qed.

(* ------------------------------------------------------------------ *)
(** ** The statements at sample inputs *)


Lemma missing_column_is_fatal_sample :
  files (world_with (Dataset no_sales_sample)) INPUT_FILE
    = Some (Dataset no_sales_sample) /\
  In "Sales" required /\
  has_column (table_of (Dataset no_sales_sample)) "Sales" = false /\
  exists c',
    first_missing (table_of (Dataset no_sales_sample)) required = Some c' /\
    main no_parse (world_with (Dataset no_sales_sample)) =
      (inl (ValueError (missing_column_message c')),
       loaded (world_with (Dataset no_sales_sample))) /\
    files (snd (main no_parse (world_with (Dataset no_sales_sample))))
      = files (world_with (Dataset no_sales_sample)) /\
    (forall before after,
        required = before ++ "Sales" :: after ->
        (forall c'', In c'' before ->
                     has_column (table_of (Dataset no_sales_sample)) c'' = true) ->
        c' = "Sales").
Proof.
  split; [reflexivity|]. split; [cbn; tauto|]. split; [reflexivity|].
  apply (missing_column_is_fatal no_parse (world_with (Dataset no_sales_sample))
           (Dataset no_sales_sample) "Sales").
  - reflexivity.
  - cbn. tauto.
  - reflexivity.
Defined.

Lemma unreadable_dates_raise_sample :
  files (world_with (Dataset undated_sample)) INPUT_FILE
    = Some (Dataset undated_sample) /\
  first_missing (table_of (Dataset undated_sample)) required = None /\
  (forall c, In c (series (table_of (Dataset undated_sample)) "Order Date") ->
             to_datetime no_parse c = NaN) /\
  main no_parse (world_with (Dataset undated_sample)) =
    (inl (IndexError "list index out of range"),
     loaded (world_with (Dataset undated_sample))).
Proof.
  assert (Hall : forall c,
             In c (series (table_of (Dataset undated_sample)) "Order Date") ->
             to_datetime no_parse c = NaN).
  { intros c Hc. cbn in Hc. destruct Hc as [<-|[]]. reflexivity. }
  split; [reflexivity|]. split; [reflexivity|]. split; [exact Hall|].
  apply (unreadable_dates_raise no_parse (world_with (Dataset undated_sample))
           (Dataset undated_sample)); [reflexivity | reflexivity | exact Hall].
Defined.


Lemma main_deterministic_sample :
  files (world_with (Dataset toy)) INPUT_FILE
    = files (snd (main no_parse (world_with (Dataset toy)))) INPUT_FILE /\
  fst (main no_parse (world_with (Dataset toy))) =
  fst (main no_parse (snd (main no_parse (world_with (Dataset toy))))).
Proof.
  split; [vm_compute; reflexivity|].
  apply (main_deterministic no_parse (world_with (Dataset toy))
           (snd (main no_parse (world_with (Dataset toy))))).
  vm_compute. reflexivity.
Defined.

Lemma missing_input_file_sample :
  files empty_world INPUT_FILE = None /\
  main no_parse empty_world =
    (inl (FileNotFoundError file_not_found_message), empty_world) /\
  events (snd (main no_parse empty_world)) = events empty_world /\
  files (snd (main no_parse empty_world)) = files empty_world.
Proof.
  split; [reflexivity|].
  apply (missing_input_file_is_fatal no_parse empty_world). reflexivity.
Defined.


(* ================================================================== *)
(** * Further properties *)
(* ================================================================== *)

(* ================================================================== *)
(** * Further properties *)
(* ================================================================== *)

(* ------------------------------------------------------------------ *)
(** ** Column letters, both ways *)

Lemma col_loop_step idx letters :
  col_loop idx letters =
  match idx / 26 with
  | 0 => String (chr (65 + idx mod 26)) letters
  | S q => col_loop q (String (chr (65 + idx mod 26)) letters)
  end.
Proof.
  funelim (col_loop idx letters); clear Heqcall.
  - now rewrite e.
  - now rewrite Hq.
Qed.

Lemma string_snoc c s : exists p c', String c s = (p ++ String c' "")%string.
Proof.
  revert c. induction s as [|d s IH]; intros c.
  - exists "", c. reflexivity.
  - destruct (IH d) as [p [c' E]]. exists (String c p), c'. cbn. now rewrite E.
Qed.

Lemma string_length_app (a b : string) :
  String.length (a ++ b)%string = String.length a + String.length b.
Proof. induction a as [|c a IH]; cbn; [reflexivity | now rewrite IH]. Qed.

Lemma string_app_assoc (a b c : string) :
  ((a ++ b) ++ c)%string = (a ++ (b ++ c))%string.
Proof. induction a as [|x a IH]; cbn; [reflexivity | now rewrite IH]. Qed.

(** Induction on a string from its last character. *)
Lemma string_rev_ind (P : string -> Prop) :
  P "" -> (forall p c, P p -> P (p ++ String c "")%string) -> forall s, P s.
Proof.
  intros H0 Hs s. remember (String.length s) as n eqn:En. revert s En.
  induction n as [|n IH]; intros s En.
  - destruct s; [assumption | discriminate].
  - destruct s as [|c s]; [discriminate|].
    destruct (string_snoc c s) as [p [c' E]]. rewrite E. apply Hs, IH.
    rewrite E, string_length_app in En. cbn in En. lia.
Qed.

Lemma col_number_snoc acc p c :
  col_number acc (p ++ String c "")%string = col_number acc p * 26 + (ord c - 64).
Proof.
  revert acc. induction p as [|d p IH]; intros acc; cbn [append col_number].
  - reflexivity.
  - apply IH.
Qed.

Lemma col_number_ge acc s : acc <= col_number acc s.
Proof.
  revert acc. induction s as [|c s IH]; intros acc; cbn [col_number]; [lia|].
  specialize (IH (acc * 26 + (ord c - 64))). lia.
Qed.

Lemma all_upper_snoc p c :
  all_upper (p ++ String c "")%string = all_upper p && is_upper c.
Proof.
  induction p as [|d p IH]; cbn [append all_upper].
  - now rewrite andb_true_r.
  - rewrite IH. now rewrite andb_assoc.
Qed.

Lemma col_number_pos s : s <> "" -> all_upper s = true -> 1 <= col_number 0 s.
Proof.
  destruct s as [|c s]; [congruence|]. intros _ H. cbn [all_upper] in H.
  apply andb_prop in H. destruct H as [Hc _]. unfold is_upper in Hc.
  apply andb_prop in Hc. destruct Hc as [Hlo _]. apply Nat.leb_le in Hlo.
  cbn [col_number]. pose proof (col_number_ge (0 * 26 + (ord c - 64)) s). lia.
Qed.

Lemma col_loop_of_number s :
  s <> "" -> all_upper s = true ->
  forall letters, col_loop (col_number 0 s - 1) letters = (s ++ letters)%string.
Proof.
  induction s as [|p c IH] using string_rev_ind; [congruence|].
  intros _ Hup letters. rewrite all_upper_snoc in Hup.
  apply andb_prop in Hup. destruct Hup as [Hp Hc].
  unfold is_upper in Hc. apply andb_prop in Hc. destruct Hc as [Hlo Hhi].
  apply Nat.leb_le in Hlo, Hhi.
  rewrite col_number_snoc, col_loop_step.
  set (v := col_number 0 p) in *.
  assert (Hdiv : (v * 26 + (ord c - 64) - 1) / 26 = v).
  { symmetry. apply (Nat.div_unique _ 26 v (ord c - 65)); lia. }
  assert (Hmod : (v * 26 + (ord c - 64) - 1) mod 26 = ord c - 65).
  { symmetry. apply (Nat.mod_unique _ 26 v (ord c - 65)); lia. }
  rewrite Hdiv, Hmod.
  replace (65 + (ord c - 65)) with (ord c) by lia.
  unfold chr, ord. rewrite ascii_nat_embedding.
  rewrite string_app_assoc. cbn [append].
  destruct p as [|d p].
  - reflexivity.
  - assert (Hv : 1 <= v) by (apply col_number_pos; [discriminate | assumption]).
    destruct v as [|v']; [lia|].
    specialize (IH ltac:(discriminate) Hp (String c letters)).
    replace (S v' - 1) with v' in IH by lia. exact IH.
Qed.

(** X1. Every non-empty word of letters A..Z is the label of the column
    index it denotes: reading a label back and writing it again gives the
    same label, so [col_idx_to_excel_col] reaches every column reference. *)
Theorem col_idx_to_excel_col_onto s :
  s <> "" -> all_upper s = true ->
  col_idx_to_excel_col (excel_col_to_idx s) = s.
Proof.
  intros Hne Hup. unfold col_idx_to_excel_col, excel_col_to_idx.
  rewrite (col_loop_of_number s Hne Hup "").
  clear. induction s as [|c s IH]; cbn; [reflexivity | now rewrite IH].
Qed.

(* ------------------------------------------------------------------ *)
(** ** Column references of the formulas *)

(** X2. The letter the script computes for a column of the Data sheet
    points back at the position of that column, the range built from it
    holds the header and then the entries of the column, and two different
    columns never share a letter. *)
Theorem column_letters_resolve own df name :
  has_column df name = true ->
  nth (excel_col_to_idx (excel_col_letters df name)) (columns df) "" = name /\
  range_values own df (data_col df name) =
    plain_value (xtext name) :: map shown (series df name) /\
  (forall other, has_column df other = true -> other <> name ->
     excel_col_letters df other <> excel_col_letters df name).
Proof.
  intros H. apply has_column_loc in H. destruct H as [i Hi].
  split; [|split].
  - unfold excel_col_letters. rewrite Hi, excel_col_roundtrip.
    now apply get_loc_nth in Hi.
  - now apply (range_values_data_col own df name i).
  - intros other Ho Hne E. apply has_column_loc in Ho. destruct Ho as [j Hj].
    unfold excel_col_letters in E. rewrite Hi, Hj in E.
    apply col_idx_to_excel_col_inj in E. subst j.
    apply Hne. eapply get_loc_inj; eassumption.
Qed.

(* ------------------------------------------------------------------ *)
(** ** The prepared table *)

Lemma get_loc_app_absent c n cols :
  c <> n -> get_loc c cols = None -> get_loc c (cols ++ [n]) = None.
Proof.
  intros Hne. induction cols as [|x cols IH]; cbn [app get_loc].
  - intros _. destruct (String.eqb_spec n c); [congruence | reflexivity].
  - destruct (String.eqb x c); [discriminate|].
    destruct (get_loc c cols); [discriminate|]. intros _. now rewrite IH.
Qed.

Lemma assign_columns df name src f :
  columns (assign df name src f) =
  if has_column df name then columns df else columns df ++ [name].
Proof.
  unfold assign, has_column. now destruct (get_loc name (columns df)).
Qed.

Lemma assign_has_column_other df name src f c :
  c <> name -> has_column (assign df name src f) c = has_column df c.
Proof.
  intros Hne. unfold has_column at 1. rewrite assign_columns.
  destruct (has_column df name); [reflexivity|].
  unfold has_column. destruct (get_loc c (columns df)) as [i|] eqn:E.
  - now rewrite (get_loc_app _ _ [name] _ E).
  - now rewrite (get_loc_app_absent _ _ _ Hne E).
Qed.

Lemma assign_has_column_self df name src f :
  has_column (assign df name src f) name = true.
Proof. unfold has_column. now rewrite assign_loc_self. Qed.

Lemma assign_rows df name src f :
  List.length (data (assign df name src f)) = List.length (data df).
Proof. rewrite assign_data. apply length_map. Qed.

Section PreparedTable.
Variable parse : cell -> option (Z * Z * Z).


(** X3. Preparing a table that has the Order Date and Manager columns
    keeps every input column at its place and keeps the number of rows;
    Year and Month are there afterwards, each added at the right end, in
    this order, unless the input already had a column of that name. *)
Theorem prepare_layout df :
  has_column df "Order Date" = true ->
  has_column df "Manager" = true ->
  columns (prepare parse df) =
    columns df ++ (if has_column df "Year" then [] else ["Year"])
               ++ (if has_column df "Month" then [] else ["Month"]) /\
  (forall c i, get_loc c (columns df) = Some i ->
               get_loc c (columns (prepare parse df)) = Some i) /\
  has_column (prepare parse df) "Year" = true /\
  has_column (prepare parse df) "Month" = true /\
  List.length (data (prepare parse df)) = List.length (data df).
Proof.
  intros Hd Hm. unfold prepare.
  set (d1 := assign df "Order Date" "Order Date" (to_datetime parse)).
  set (d2 := assign d1 "Year" "Order Date" dt_year).
  set (d3 := assign d2 "Month" "Order Date" dt_month).
  assert (C1 : columns d1 = columns df) by (unfold d1; now rewrite assign_columns, Hd).
  assert (H1y : has_column d1 "Year" = has_column df "Year")
    by (apply assign_has_column_other; discriminate).
  assert (H1m : has_column d1 "Month" = has_column df "Month")
    by (apply assign_has_column_other; discriminate).
  assert (C2 : columns d2 =
               columns df ++ (if has_column df "Year" then [] else ["Year"])).
  { unfold d2. rewrite assign_columns, H1y, C1.
    destruct (has_column df "Year"); [now rewrite app_nil_r | reflexivity]. }
  assert (H2m : has_column d2 "Month" = has_column df "Month").
  { unfold d2. rewrite assign_has_column_other by discriminate. exact H1m. }
  assert (C3 : columns d3 =
               columns df ++ (if has_column df "Year" then [] else ["Year"])
                          ++ (if has_column df "Month" then [] else ["Month"])).
  { unfold d3. rewrite assign_columns, H2m, C2.
    destruct (has_column df "Month"); [now rewrite app_nil_r | now rewrite app_assoc]. }
  assert (H3g : has_column d3 "Manager" = true).
  { unfold d3, d2, d1. now repeat apply assign_has_column. }
  split; [|split; [|split; [|split]]].
  - now rewrite assign_columns, H3g.
  - intros c i Hi. unfold d3, d2, d1. now repeat apply assign_loc_kept.
  - apply assign_has_column. apply assign_has_column. apply assign_has_column_self.
  - apply assign_has_column. apply assign_has_column_self.
  - unfold d3, d2, d1. now rewrite !assign_rows.
Qed.




End PreparedTable.

(* ------------------------------------------------------------------ *)
(** ** Sorted totals *)

Section SortedMore.
Context {A : Type} (leb : A -> A -> bool).
Hypothesis leb_total : forall a b, leb a b = true \/ leb b a = true.
Hypothesis leb_trans : forall a b c, leb a b = true -> leb b c = true -> leb a c = true.

Lemma StronglySorted_sorted l :
  StronglySorted (fun a b => leb a b = true) (sorted leb l).
Proof.
  apply Sorted_StronglySorted.
  - intros a b c. apply leb_trans.
  - now apply Sorted_sorted.
Qed.
End SortedMore.

Lemma StronglySorted_app_le {A : Type} (R : A -> A -> Prop) l1 l2 :
  StronglySorted R (l1 ++ l2) ->
  forall x y, In x l1 -> In y l2 -> R x y.
Proof.
  induction l1 as [|a l1 IH]; cbn [app]; intros Hs x y Hx Hy; [contradiction|].
  inversion Hs as [|? ? Hs' Hall]; subst. destruct Hx as [<-|Hx].
  - rewrite Forall_forall in Hall. apply Hall, in_or_app. now right.
  - now apply IH.
Qed.

Lemma in_map_insert_sorted {A B : Type} (f : A -> B) leb y l x :
  In x (map f (insert_sorted leb y l)) <-> x = f y \/ In x (map f l).
Proof.
  rewrite !in_map_iff. split.
  - intros [a [<- Ha]]. apply in_insert_sorted in Ha. destruct Ha as [->|Ha]; eauto.
  - intros [->|[a [<- Ha]]]; eexists; (split; [reflexivity|]);
      apply in_insert_sorted; auto.
Qed.

Lemma map_insert_sorted_NoDup {A B : Type} (f : A -> B) leb y l :
  ~ In (f y) (map f l) -> NoDup (map f l) ->
  NoDup (map f (insert_sorted leb y l)).
Proof.
  induction l as [|z l IH]; cbn [insert_sorted map]; intros Hy Hl.
  - constructor; [tauto | constructor].
  - destruct (leb y z); cbn [map]; [now constructor|].
    inversion Hl as [|? ? Hz Hl']; subst. constructor.
    + rewrite in_map_insert_sorted. cbn in Hy. intuition.
    + apply IH; [cbn in Hy; tauto | assumption].
Qed.

Lemma map_sorted_NoDup {A B : Type} (f : A -> B) leb l :
  NoDup (map f l) -> NoDup (map f (sorted leb l)).
Proof.
  induction l as [|y l IH]; cbn [sorted fold_right map]; intros Hl; [constructor|].
  fold (sorted leb l). inversion Hl; subst.
  apply map_insert_sorted_NoDup; [|auto].
  intros Hin. apply in_map_iff in Hin. destruct Hin as [a [E Ha]].
  apply in_sorted in Ha. match goal with H : ~ In _ _ |- _ => apply H end.
  rewrite <- E. now apply in_map.
Qed.

Lemma by_total_desc_total a b :
  by_total_desc a b = true \/ by_total_desc b a = true.
Proof.
  unfold by_total_desc. rewrite !Qle_bool_iff.
  destruct (Qlt_le_dec (snd a) (snd b)) as [H|H]; [right | left]; [|assumption].
  now apply Qlt_le_weak.
Qed.

Lemma by_total_desc_trans a b c :
  by_total_desc a b = true -> by_total_desc b c = true -> by_total_desc a c = true.
Proof.
  unfold by_total_desc. rewrite !Qle_bool_iff. intros H1 H2.
  eapply Qle_trans; eassumption.
Qed.

Lemma sort_values_desc_sorted t :
  StronglySorted (fun a b => by_total_desc a b = true) (sort_values_desc t).
Proof.
  apply (StronglySorted_sorted by_total_desc);
    [apply by_total_desc_total | apply by_total_desc_trans].
Qed.

Lemma in_groupby_sum k q keys values :
  In (k, q) (groupby_sum keys values) <->
  q = sum_where k keys values /\ In (Str k) keys.
Proof.
  unfold groupby_sum. rewrite in_map_iff. split.
  - intros [k' [E Hin]]. injection E as -> <-.
    apply in_sorted, in_unique_string, in_labels in Hin. auto.
  - intros [-> Hin]. exists k. split; [reflexivity|].
    now apply in_sorted, in_unique_string, in_labels.
Qed.

Lemma groupby_sum_keys_NoDup keys values :
  NoDup (map fst (groupby_sum keys values)).
Proof.
  unfold groupby_sum. rewrite map_map. cbn [fst]. rewrite map_id.
  apply NoDup_sorted, NoDup_unique_string.
Qed.

Lemma in_ranked k q keys values :
  In (k, q) (ranked keys values) <->
  q = sum_where k keys values /\ In (Str k) keys.
Proof. unfold ranked, sort_values_desc. now rewrite in_sorted, in_groupby_sum. Qed.

Lemma ranked_keys_NoDup keys values : NoDup (map fst (ranked keys values)).
Proof. apply map_sorted_NoDup, groupby_sum_keys_NoDup. Qed.




Lemma keyed_value_unique {B : Type} (t : list (string * B)) k a b :
  NoDup (map fst t) -> In (k, a) t -> In (k, b) t -> a = b.
Proof.
  induction t as [|[k0 v0] t IH]; cbn [map fst In]; intros Hnd Ha Hb; [contradiction|].
  inversion Hnd as [|? ? Hk Hnd']; subst.
  destruct Ha as [Ea|Ha], Hb as [Eb|Hb].
  - congruence.
  - injection Ea as -> _. exfalso. apply Hk. apply in_map_iff. now exists (k, b).
  - injection Eb as -> _. exfalso. apply Hk. apply in_map_iff. now exists (k, a).
  - now apply IH.
Qed.

Lemma in_firstn {A : Type} (x : A) n l : In x (firstn n l) -> In x l.
Proof.
  intros H. rewrite <- (firstn_skipn n l). apply in_or_app. now left.
Qed.

Lemma firstn_is_best (t : list (string * Q)) n k q k' q' :
  StronglySorted (fun a b => by_total_desc a b = true) t ->
  NoDup (map fst t) ->
  In (k, q) t -> In k (map fst (firstn n t)) ->
  In (k', q') t -> ~ In k' (map fst (firstn n t)) ->
  (q' <= q)%Q.
Proof.
  intros Hs Hnd Hin Hk Hin' Hk'.
  rewrite <- (firstn_skipn n t) in Hs, Hin'.
  assert (H1 : In (k, q) (firstn n t)).
  { apply in_map_iff in Hk. destruct Hk as [[k0 q0] [E H0]]. cbn in E. subst k0.
    assert (q0 = q)
      by (eapply keyed_value_unique; eauto; eapply in_firstn; eassumption).
    now subst. }
  assert (H2 : In (k', q') (skipn n t)).
  { apply in_app_or in Hin'. destruct Hin' as [H|H]; [|assumption].
    exfalso. apply Hk'. apply in_map_iff. now exists (k', q'). }
  pose proof (StronglySorted_app_le _ _ _ Hs _ _ H1 H2) as Hle.
  now apply Qle_bool_iff in Hle.
Qed.


(* ------------------------------------------------------------------ *)
(** ** The sheets against the pandas totals *)


Lemma filter_map_length {A B : Type} (g : B -> bool) (h : A -> B) l :
  List.length (filter g (map h l)) = List.length (filter (fun x => g (h x)) l).
Proof.
  induction l as [|x l IH]; cbn [map filter]; [reflexivity|].
  destruct (g (h x)); cbn [List.length]; now rewrite IH.
Qed.

Lemma filter_length_lt {A : Type} (f : A -> bool) l x :
  In x l -> f x = false -> List.length (filter f l) < List.length l.
Proof.
  induction l as [|y l IH]; cbn [In filter List.length]; [contradiction|].
  intros [->|Hin] Hx.
  - rewrite Hx. pose proof (filter_length_le f l). lia.
  - specialize (IH Hin Hx). destruct (f y); cbn [List.length]; lia.
Qed.

Lemma filter_length_ext_in {A : Type} (f g : A -> bool) l :
  (forall x, In x l -> f x = g x) ->
  List.length (filter f l) = List.length (filter g l).
Proof.
  intros H. now rewrite (filter_ext_in f g l H).
Qed.

Lemma build_workbook_sheets_data df agg :
  wb_data (fst (build_workbook df agg)) = df.
Proof. apply build_workbook_sheets. Qed.

Section SheetsAndTotals.
Variable parse : cell -> option (Z * Z * Z).
Local Open Scope Q_scope.

Lemma report_has_column df wb c :
  report parse df = Some wb -> In c required -> has_column (wb_data wb) c = true.
Proof.
  intros H Hin. rewrite (report_data _ _ _ H). apply prepare_has_column.
  apply report_inv in H. destruct H as [Hm _].
  now apply (first_missing_none _ _ Hm).
Qed.


Lemma mgr_sales_is_num df r :
  (1 <= r <= List.length (managers df))%nat ->
  is_num (cell_value 2 df (mgr_sheet df) r 1) = true.
Proof. intros Hr. now rewrite mgr_sales_value. Qed.

(** X8. In a report, the Rank cell of a manager shows one more than the
    number of managers on the sheet with strictly higher sales: a number
    between 1 and the number of managers, 1 exactly for those nobody
    exceeds, and the same for managers with equal sales. *)
Theorem manager_ranks df wb :
  report parse df = Some wb ->
  let n := List.length (managers (wb_data wb)) in
  let sales r := vnum (calc wb sheet_mgr r 1) in
  let higher r :=
    List.length (filter (fun i => negb (Qle_bool (sales i) (sales r))) (seq 1 n)) in
  forall r, (1 <= r <= n)%nat ->
    calc wb sheet_mgr r 3 = VNum (inject_Z (Z.of_nat (1 + higher r))) /\
    (1 <= 1 + higher r <= n)%nat /\
    (higher r = 0%nat <-> forall i, (1 <= i <= n)%nat -> sales i <= sales r) /\
    (forall r', (1 <= r' <= n)%nat -> sales r' == sales r ->
                calc wb sheet_mgr r' 3 = calc wb sheet_mgr r 3).
Proof.
  intros H. pose proof (report_data _ _ _ H) as Hd.
  apply report_inv in H. destruct H as [_ [agg Hwb]].
  cbv zeta. rewrite Hd. subst wb.
  set (df' := prepare parse df). set (n := List.length (managers df')).
  assert (Hrank : forall r, (1 <= r <= n)%nat ->
    calc (fst (build_workbook df' agg)) sheet_mgr r 3 =
    VNum (inject_Z (Z.of_nat (1 + List.length
      (filter (fun i => negb (Qle_bool
                 (vnum (calc (fst (build_workbook df' agg)) sheet_mgr i 1))
                 (vnum (calc (fst (build_workbook df' agg)) sheet_mgr r 1))))
              (seq 1 n)))))).
  { intros r Hr. rewrite calc_mgr, mgr_rank_value by assumption.
    unfold count_greater. rewrite filter_map_length. fold n.
    match goal with
    | |- VNum (inject_Z (Z.of_nat (1 + ?a))) = VNum (inject_Z (Z.of_nat (1 + ?b))) =>
        replace a with b; [reflexivity|]
    end.
    apply filter_length_ext_in. intros i Hi. apply in_seq in Hi.
    rewrite !calc_mgr, mgr_sales_is_num by (unfold n in *; lia). reflexivity. }
  intros r Hr. split; [now apply Hrank|]. split; [|split].
  - split; [lia|].
    assert (Hlt : (List.length
              (filter (fun i => negb (Qle_bool
                 (vnum (calc (fst (build_workbook df' agg)) sheet_mgr i 1))
                 (vnum (calc (fst (build_workbook df' agg)) sheet_mgr r 1))))
              (seq 1 n)) < List.length (seq 1 n))%nat).
    { apply (filter_length_lt _ _ r); [apply in_seq; lia|].
      apply negb_false_iff, Qle_bool_iff, Qle_refl. }
    rewrite length_seq in Hlt. lia.
  - split.
    + intros H0 i Hi. apply length_zero_iff_nil in H0.
      destruct (Qle_bool (vnum (calc (fst (build_workbook df' agg)) sheet_mgr i 1))
                         (vnum (calc (fst (build_workbook df' agg)) sheet_mgr r 1)))
        eqn:E; [now apply Qle_bool_iff|].
      assert (Hin : In i (filter (fun i => negb (Qle_bool
                 (vnum (calc (fst (build_workbook df' agg)) sheet_mgr i 1))
                 (vnum (calc (fst (build_workbook df' agg)) sheet_mgr r 1))))
              (seq 1 n))).
      { apply filter_In. split; [apply in_seq; lia | now rewrite E]. }
      rewrite H0 in Hin. contradiction.
    + intros Hall. apply length_zero_iff_nil.
      destruct (filter _ (seq 1 n)) as [|i l] eqn:E; [reflexivity|].
      assert (Hin : In i (i :: l)) by now left. rewrite <- E in Hin.
      apply filter_In in Hin. destruct Hin as [Hi Hb]. apply in_seq in Hi.
      apply negb_true_iff in Hb.
      assert (Hle := Hall i ltac:(lia)). apply Qle_bool_iff in Hle. congruence.
  - intros r' Hr' Heq. rewrite !Hrank by assumption.
    match goal with
    | |- VNum (inject_Z (Z.of_nat (1 + ?a))) = VNum (inject_Z (Z.of_nat (1 + ?b))) =>
        replace a with b; [reflexivity|]
    end.
    apply filter_length_ext_in. intros i _. now rewrite Heq.
Qed.

End SheetsAndTotals.

(* ------------------------------------------------------------------ *)
(** ** Years *)

Lemma in_unique_Z x l : In x (unique Z.eqb l) <-> In x l.
Proof.
  induction l as [|y l IH]; cbn [unique In]; [tauto|].
  rewrite filter_In, IH. split.
  - intuition.
  - intros [->|H]; [now left|].
    destruct (Z.eqb_spec y x) as [->|Hne]; [now left|].
    right. split; [assumption | reflexivity].
Qed.

Lemma NoDup_unique_Z l : NoDup (unique Z.eqb l).
Proof.
  induction l as [|y l IH]; cbn [unique]; constructor.
  - rewrite filter_In. intros [_ H]. now rewrite Z.eqb_refl in H.
  - now apply NoDup_filter.
Qed.

Lemma Zleb_total a b : Z.leb a b = true \/ Z.leb b a = true.
Proof. rewrite !Z.leb_le. lia. Qed.

Lemma Zleb_trans a b c : Z.leb a b = true -> Z.leb b c = true -> Z.leb a c = true.
Proof. rewrite !Z.leb_le. lia. Qed.

Lemma in_years y df : In y (years df) <-> In y (ints (series df "Year")).
Proof. unfold years. now rewrite in_sorted, in_unique_Z. Qed.

Lemma years_sorted df : StronglySorted (fun a b => Z.leb a b = true) (years df).
Proof. apply (StronglySorted_sorted Z.leb); [apply Zleb_total | apply Zleb_trans]. Qed.

Lemma last_cons {A : Type} (z y : A) r : last (z :: r) y = last r z.
Proof.
  revert z y. induction r as [|a r IH]; intros z y; [reflexivity|].
  change (last (z :: a :: r) y) with (last (a :: r) y). now rewrite !IH.
Qed.

Lemma sorted_last_is_max (y : Z) r :
  StronglySorted (fun a b => Z.leb a b = true) (y :: r) ->
  In (last r y) (y :: r) /\ forall x, In x (y :: r) -> (x <= last r y)%Z.
Proof.
  revert y. induction r as [|z r IH]; intros y Hs.
  - cbn. split; [now left|]. intros x [<-|[]]. lia.
  - inversion Hs as [|? ? Hs' Hall]; subst.
    destruct (IH z Hs') as [Hin Hmax].
    rewrite last_cons.
    split; [now right|]. intros x [<-|Hx]; [|now apply Hmax].
    rewrite Forall_forall in Hall. specialize (Hall z (or_introl eq_refl)).
    apply Z.leb_le in Hall. specialize (Hmax z (or_introl eq_refl)). lia.
Qed.

Lemma compute_aggregates_years df agg :
  compute_aggregates df = inr agg ->
  first_year df = inr (agg_first_year agg) /\
  last_year df = inr (agg_last_year agg).
Proof.
  unfold compute_aggregates.
  destruct (first_year df) as [e|fy]; [discriminate|].
  destruct (last_year df) as [e|ly]; [discriminate|].
  destruct (top_product_share df) as [e|s]; [discriminate|].
  intros [= <-]. split; reflexivity.
Qed.

(** X9. When the aggregates are computed, [first_year] and [last_year] are
    the smallest and the largest year found in the Year column, and the
    list of years holds every such year exactly once. *)
Theorem first_and_last_year_bound_the_years df agg :
  compute_aggregates df = inr agg ->
  In (agg_first_year agg) (years df) /\
  In (agg_last_year agg) (years df) /\
  (forall y, In y (years df) -> (agg_first_year agg <= y <= agg_last_year agg)%Z) /\
  NoDup (years df) /\
  (forall y, In y (years df) <-> In y (ints (series df "Year"))).
Proof.
  intros H. apply compute_aggregates_years in H. destruct H as [Hf Hl].
  unfold first_year, last_year in Hf, Hl.
  pose proof (years_sorted df) as Hs.
  destruct (years df) as [|y0 r] eqn:E; [discriminate|].
  injection Hf as <-. injection Hl as <-.
  destruct (sorted_last_is_max _ _ Hs) as [Hin Hmax].
  split; [now left|]. split; [exact Hin|]. split; [|split].
  - intros y Hy. split; [|now apply Hmax].
    inversion Hs as [|? ? _ Hall]; subst. destruct Hy as [<-|Hy]; [lia|].
    rewrite Forall_forall in Hall. apply Z.leb_le. now apply Hall.
  - rewrite <- E. unfold years. apply NoDup_sorted, NoDup_unique_Z.
  - intros y. rewrite <- E. apply in_years.
Qed.

(* ------------------------------------------------------------------ *)
(** ** When the aggregates fail *)







(* ------------------------------------------------------------------ *)
(** ** What a run does to the files *)

Section RunEffects.
Variable parse : cell -> option (Z * Z * Z).

Lemma after_load_no_aggregates df w e :
  first_missing df required = None ->
  compute_aggregates (prepare parse df) = inl e ->
  after_load parse df w = (inl e, w).
Proof.
  intros Hm Ha. unfold after_load, bind.
  rewrite check_required_first_missing, Hm. unfold lift. now rewrite Ha.
Qed.

Lemma after_load_aggregates df w agg :
  first_missing df required = None ->
  compute_aggregates (prepare parse df) = inr agg ->
  after_load parse df w =
  match snd (build_workbook (prepare parse df) agg) with
  | Some e => (inl e, written w (fst (build_workbook (prepare parse df) agg)))
  | None =>
      (inr agg,
       {| files := files (written w (fst (build_workbook (prepare parse df) agg)));
          events := events (written w (fst (build_workbook (prepare parse df) agg)))
                    ++ [EvPrint created_message] |})
  end.
Proof.
  intros Hm Ha. unfold after_load, bind.
  rewrite check_required_first_missing, Hm. unfold lift. rewrite Ha.
  cbn [emit save]. destruct (snd (build_workbook (prepare parse df) agg)); reflexivity.
Qed.




(** X12. Running the script again right after a run ends the same way and
    leaves every file as the first run left it. *)
Theorem rerun_changes_nothing w :
  fst (main parse (snd (main parse w))) = fst (main parse w) /\
  (forall p, files (snd (main parse (snd (main parse w)))) p
             = files (snd (main parse w)) p).
Proof.
  split.
  { rewrite !main_result. now rewrite main_keeps_input. }
  destruct (files w INPUT_FILE) as [f|] eqn:Hf.
  2:{ rewrite (main_missing _ _ Hf). cbn [snd]. now rewrite (main_missing _ _ Hf). }
  assert (Hkeep := main_keeps_input parse w). rewrite Hf in Hkeep.
  rewrite (main_loaded _ (snd (main parse w)) _ Hkeep).
  revert Hkeep. rewrite (main_loaded _ _ _ Hf). intros _.
  destruct (first_missing (table_of f) required) as [c|] eqn:Hm.
  { now rewrite !(after_load_missing _ _ _ _ Hm). }
  destruct (compute_aggregates (prepare parse (table_of f))) as [e|agg] eqn:Ha.
  { now rewrite !(after_load_no_aggregates _ _ _ Hm Ha). }
  rewrite !(after_load_aggregates _ _ _ Hm Ha).
  destruct (snd (build_workbook (prepare parse (table_of f)) agg)) as [e|];
    cbn [fst snd written files events loaded]; intros p;
    now destruct (String.eqb p OUTPUT_FILE).
Qed.

End RunEffects.

(* ------------------------------------------------------------------ *)
(** ** A run on a table whose dates can all be read *)

Section CleanRun.
Variable parse : cell -> option (Z * Z * Z).









End CleanRun.

(* ------------------------------------------------------------------ *)
(** ** The yearly table of the Dashboard *)

Section Partition2.
Local Open Scope Q_scope.
Context {K : Type} (hit : K -> cell -> bool) (rest : cell -> bool).


End Partition2.







Section YearlyTable.
Variable parse : cell -> option (Z * Z * Z).
Local Open Scope Q_scope.






End YearlyTable.

(* ------------------------------------------------------------------ *)
(** ** The number of managers *)

Lemma filter_map_swap' {A B : Type} (f : B -> bool) (g : A -> B) l :
  filter f (map g l) = map g (filter (fun a => f (g a)) l).
Proof.
  induction l as [|x l IH]; cbn [map filter]; [reflexivity|].
  destruct (f (g x)); cbn [map]; now rewrite IH.
Qed.

Lemma unique_map_Str ss :
  unique cell_eqb (map Str ss) = map Str (unique String.eqb ss).
Proof.
  induction ss as [|s ss IH]; cbn [map unique]; [reflexivity|].
  rewrite IH, filter_map_swap'. reflexivity.
Qed.

Lemma dropna_map_Str ss : dropna (map Str ss) = map Str ss.
Proof. induction ss as [|s ss IH]; cbn; [reflexivity | now rewrite <- IH at 2]. Qed.

Lemma labels_map_Str ss : labels (map Str ss) = ss.
Proof. induction ss as [|s ss IH]; cbn; [reflexivity | now rewrite IH]. Qed.

Lemma named_labels ss :
  labels (dropna (map (replace_na "") (map Str ss))) = filter nonempty ss.
Proof.
  induction ss as [|s ss IH]; cbn [map]; [reflexivity|].
  cbn [replace_na filter]. unfold nonempty at 1.
  destruct (String.eqb s ""); cbn [negb].
  - change (dropna (NaN :: ?l)) with (dropna l). exact IH.
  - change (labels (dropna (Str s :: map (replace_na "") (map Str ss))))
      with (s :: labels (dropna (map (replace_na "") (map Str ss)))).
    now rewrite IH.
Qed.

Lemma filter_filter_comm {A : Type} (f g : A -> bool) l :
  filter f (filter g l) = filter g (filter f l).
Proof.
  induction l as [|x l IH]; cbn [filter]; [reflexivity|].
  destruct (f x) eqn:Ef, (g x) eqn:Eg; cbn [filter]; rewrite ?Ef, ?Eg, IH; reflexivity.
Qed.

Lemma filter_absorb (p : string -> bool) x l :
  p x = false ->
  filter p (filter (fun y => negb (String.eqb x y)) l) = filter p l.
Proof.
  intros Hx. induction l as [|y l IH]; cbn [filter]; [reflexivity|].
  destruct (String.eqb_spec x y) as [<-|Hne]; cbn [negb filter].
  - now rewrite Hx.
  - now rewrite IH.
Qed.

Lemma unique_filter (p : string -> bool) l :
  unique String.eqb (filter p l) = filter p (unique String.eqb l).
Proof.
  induction l as [|x l IH]; cbn [filter unique]; [reflexivity|].
  destruct (p x) eqn:E; cbn [unique filter]; rewrite ?E.
  - now rewrite IH, filter_filter_comm.
  - now rewrite IH, filter_absorb.
Qed.

Lemma length_without x (u : list string) :
  NoDup u ->
  List.length u =
  List.length (filter (fun s => negb (String.eqb s x)) u)
  + (if existsb (fun s => String.eqb s x) u then 1 else 0).
Proof.
  induction u as [|a u IH]; intros Hnd; [reflexivity|].
  inversion Hnd as [|? ? Ha Hnd']; subst. specialize (IH Hnd').
  cbn [filter existsb List.length].
  destruct (String.eqb_spec a x) as [->|Hne]; cbn [negb orb List.length].
  - assert (Hex : existsb (fun s => String.eqb s x) u = false).
    { destruct (existsb _ u) eqn:Ex; [|reflexivity].
      apply existsb_exists in Ex. destruct Ex as [s [Hin Hs]].
      apply String.eqb_eq in Hs. subst. contradiction. }
    rewrite Hex in IH. lia.
  - lia.
Qed.

Lemma existsb_unique (p : string -> bool) l :
  existsb p (unique String.eqb l) = existsb p l.
Proof.
  apply eq_true_iff_eq. rewrite !existsb_exists.
  split; intros [s [Hin Hs]]; exists s; (split; [|assumption]);
    now apply in_unique_string.
Qed.

Section Managers2.
Variable parse : cell -> option (Z * Z * Z).

Lemma filled_managers l :
  (forall c, In c l -> c = NaN \/ exists s, c = Str s) ->
  map (fillna (Str "")) l = map Str (map manager_text l).
Proof.
  intros H. rewrite map_map. apply map_ext_in. intros c Hc.
  destruct (H c Hc) as [->|[s ->]]; reflexivity.
Qed.

Lemma existsb_unnamed l :
  (forall c, In c l -> c = NaN \/ exists s, c = Str s) ->
  existsb (fun s => String.eqb s "") (map manager_text l) =
  existsb (fun c => negb (is_named c)) l.
Proof.
  intros H. induction l as [|c l IH]; [reflexivity|].
  cbn [map existsb]. rewrite IH by (intros; apply H; now right).
  destruct (H c (or_introl eq_refl)) as [->|[s ->]]; cbn; [reflexivity|].
  now rewrite negb_involutive.
Qed.

(** X15. In a report of a table whose Manager column holds texts and
    missing values only, the Total Managers cell of the Dashboard shows
    [distinct_managers], and this count is the number of rows of the
    Manager Performance sheet plus one when some row names no manager: the
    empty manager is counted as a manager. *)
Theorem total_managers_counts_the_empty_manager df wb :
  report parse df = Some wb ->
  (forall c, In c (series df "Manager") -> c = NaN \/ exists s, c = Str s) ->
  calc wb sheet_dash 3 1 =
    VNum (inject_Z (Z.of_nat (distinct_managers (wb_data wb)))) /\
  distinct_managers (wb_data wb) =
    List.length (managers (wb_data wb))
    + (if existsb (fun c => negb (is_named c)) (series df "Manager") then 1 else 0).
Proof.
  intros H Htyped. destruct (report_columns _ _ _ H) as [Hm _].
  pose proof (report_data _ _ _ H) as Hd.
  apply report_inv in H. destruct H as [_ [agg Hwb]].
  split.
  - rewrite Hwb, calc_dash, build_workbook_sheets_data, cell_value_S.
    rewrite dash_sheet_fixed by lia. reflexivity.
  - rewrite Hd. unfold distinct_managers, managers, nunique.
    rewrite series_prepare_manager by assumption.
    rewrite (filled_managers _ Htyped).
    set (ss := map manager_text (series df "Manager")).
    rewrite dropna_map_Str, unique_map_Str, length_map, named_labels.
    rewrite length_sorted, unique_filter.
    rewrite (length_without "" (unique String.eqb ss)) by apply NoDup_unique_string.
    rewrite existsb_unique. unfold ss. rewrite existsb_unnamed by assumption.
    reflexivity.
Qed.

End Managers2.

(* ------------------------------------------------------------------ *)
(** ** The categories charted on the Category Trends sheet *)

Lemma get_loc_of_In c l : In c l -> exists i, get_loc c l = Some i.
Proof.
  induction l as [|x l IH]; cbn [In get_loc]; [contradiction|].
  intros H. destruct (String.eqb_spec x c) as [->|Hne]; [eauto|].
  destruct H as [->|H]; [contradiction|].
  destruct (IH H) as [i ->]. cbn. eauto.
Qed.

(** X16. The categories of the chart table are at most six, each once;
    every one of them is in the sorted list of categories, so looking up
    its position there ([categories.index(cat)]) finds it; and no category
    left out has a higher total than a charted one. *)
Theorem top_cats_are_categories df :
  List.length (top_cats df) <= 6 /\
  NoDup (top_cats df) /\
  (forall c, In c (top_cats df) ->
     exists i, get_loc c (categories df) = Some i /\ nth i (categories df) "" = c) /\
  (forall c q c' q',
      In (c, q) (cat_totals df) -> In c (top_cats df) ->
      In (c', q') (cat_totals df) -> ~ In c' (top_cats df) ->
      (q' <= q)%Q).
Proof.
  unfold top_cats. split; [|split; [|split]].
  - rewrite length_map, length_firstn. apply Nat.le_min_l.
  - assert (Hnd : NoDup (map fst (cat_totals df)))
      by exact (ranked_keys_NoDup (series df "Category") (series df "Sales")).
    rewrite <- (firstn_skipn 6 (cat_totals df)), map_app in Hnd.
    now apply NoDup_app_remove_r in Hnd.
  - intros c Hc. apply in_map_iff in Hc. destruct Hc as [[k q] [E Hin]].
    change (k = c) in E. subst k. apply in_firstn in Hin.
    apply (in_ranked c q (series df "Category") (series df "Sales")) in Hin.
    destruct Hin as [_ Hin].
    assert (Hcat : In c (categories df)).
    { unfold categories. apply in_sorted, in_unique_string, in_labels, in_dropna.
      split; [assumption | discriminate]. }
    destruct (get_loc_of_In _ _ Hcat) as [i Hi]. exists i. split; [assumption|].
    now apply get_loc_nth in Hi.
  - intros c q c' q' Hin Hc Hin' Hc'.
    eapply (firstn_is_best (cat_totals df)); eauto.
    + apply sort_values_desc_sorted.
    + exact (ranked_keys_NoDup (series df "Category") (series df "Sales")).
Qed.

(* ------------------------------------------------------------------ *)
(** ** The share of the top product *)

Section Share.
Local Open Scope Q_scope.



End Share.

(* ------------------------------------------------------------------ *)
(** ** The order count of the Dashboard *)

Lemma length_unique_le {A : Type} (eqb : A -> A -> bool) l :
  List.length (unique eqb l) <= List.length l.
Proof.
  induction l as [|x l IH]; cbn [unique List.length]; [lia|].
  pose proof (filter_length_le (fun y => negb (eqb x y)) (unique eqb l)). lia.
Qed.

Lemma filter_length_all {A : Type} (f : A -> bool) l :
  List.length (filter f l) = List.length l -> forall x, In x l -> f x = true.
Proof.
  intros H x Hin. destruct (f x) eqn:E; [reflexivity|].
  pose proof (filter_length_lt f l x Hin E). lia.
Qed.

Lemma filter_all {A : Type} (f : A -> bool) l :
  (forall x, In x l -> f x = true) -> filter f l = l.
Proof.
  induction l as [|x l IH]; intros H; cbn [filter]; [reflexivity|].
  rewrite (H x) by now left. f_equal. apply IH. intros y Hy. apply H. now right.
Qed.

(** [unique] keeps the whole list exactly when no two of its entries are
    equal. *)
Lemma length_unique_all {A : Type} (eqb : A -> A -> bool) l :
  List.length (unique eqb l) = List.length l <->
  ForallOrdPairs (fun a b => eqb a b = false) l.
Proof.
  induction l as [|x l IH]; cbn [unique List.length].
  - split; [constructor | reflexivity].
  - pose proof (filter_length_le (fun y => negb (eqb x y)) (unique eqb l)) as H1.
    pose proof (length_unique_le eqb l) as H2. split.
    + intros H.
      assert (Hl : List.length (unique eqb l) = List.length l) by lia.
      assert (Hf : List.length (filter (fun y => negb (eqb x y)) (unique eqb l)) =
                   List.length (unique eqb l)) by lia.
      pose proof (filter_length_all _ _ Hf) as Hall.
      assert (Hu : forall y, In y l -> In y (unique eqb l)).
      { clear -Hl H2. revert Hl. induction l as [|z l IH]; [contradiction|].
        cbn [unique List.length].
        pose proof (filter_length_le (fun y => negb (eqb z y)) (unique eqb l)) as H1.
        pose proof (length_unique_le eqb l) as H3. intros Hl.
        assert (Hf : List.length (filter (fun y => negb (eqb z y)) (unique eqb l)) =
                     List.length (unique eqb l)) by lia.
        rewrite (filter_all _ _ (filter_length_all _ _ Hf)).
        intros y [->|Hy]; [now left|]. right. apply IH; [assumption | lia | assumption]. }
      constructor.
      * apply Forall_forall. intros y Hy. apply negb_true_iff, Hall, Hu, Hy.
      * now apply IH.
    + intros H. inversion H as [|? ? Hx Hl]; subst.
      apply IH in Hl. rewrite filter_all; [lia|].
      intros y Hy. apply negb_true_iff.
      rewrite Forall_forall in Hx. apply Hx.
      clear -Hy. induction l as [|z l IH]; [contradiction|].
      cbn [unique] in Hy. destruct Hy as [->|Hy]; [now left|].
      apply filter_In in Hy. right. now apply IH.
Qed.

Lemma nonblank_shown c :
  c <> Str "" -> nonblank (shown c) = negb (isna c).
Proof.
  intros H. destruct c as [|q|s|y m d]; try reflexivity.
  unfold shown, to_xcell, xtext.
  destruct (String.eqb_spec s "") as [->|Hs]; [congruence | reflexivity].
Qed.

Section OrderCount.
Variable parse : cell -> option (Z * Z * Z).
Local Open Scope Q_scope.

(** X18. In a report, the Total Orders cell of the Dashboard shows the
    number of non-empty cells of the Order ID column, and the Average
    Order Value cell the total sales over one more than that.  When no
    identifier is the empty text this is the number of rows with an
    identifier: never less than the number of distinct identifiers pandas
    counts, and equal to it exactly when no two rows carry the same
    identifier. *)
Theorem dashboard_total_orders df wb :
  report parse df = Some wb ->
  let ids := series df "Order ID" in
  let k := List.length (filter nonblank (map shown ids)) in
  (is_num (calc wb sheet_dash 2 1) = true /\
   vnum (calc wb sheet_dash 2 1) == inject_Z (Z.of_nat k)) /\
  (is_num (calc wb sheet_dash 4 1) = true /\
   vnum (calc wb sheet_dash 4 1) ==
   total_sales_val (wb_data wb) / inject_Z (Z.of_nat (1 + k))) /\
  ((forall c, In c ids -> c <> Str "") ->
   k = List.length (dropna ids) /\
   (total_orders (wb_data wb) <= k)%nat /\
   (total_orders (wb_data wb) = k <->
    ForallOrdPairs (fun a b => cell_eqb a b = false) (dropna ids))).
Proof.
  intros H.
  assert (Ho0 : has_column df "Order ID" = true).
  { apply report_inv in H. destruct H as [Hm _].
    apply (first_missing_none _ _ Hm). cbn. tauto. }
  assert (Ho : has_column (wb_data wb) "Order ID" = true)
    by (apply (report_has_column parse df); [assumption | cbn; tauto]).
  assert (Hs : has_column (wb_data wb) "Sales" = true)
    by (apply (report_has_column parse df); [assumption | cbn; tauto]).
  pose proof (report_data _ _ _ H) as Hd.
  apply report_inv in H. destruct H as [_ [agg Hwb]].
  assert (Hser : series (wb_data wb) "Order ID" = series df "Order ID").
  { rewrite Hd. apply series_prepare_kept; [assumption|discriminate..]. }
  cbv zeta. rewrite <- Hser. unfold total_orders, total_sales_val.
  rewrite Hd in *. clear Hd Hser Ho0. subst wb. rewrite !calc_dash.
  generalize dependent (prepare parse df). clear df. intros df' Ho Hs.
  split; [|split].
  - apply has_column_loc in Ho. destruct Ho as [io Hio].
    cbn [cell_value]. rewrite dash_sheet_fixed by lia.
    change (cell_at (dash_head df') 2 1) with
      (XFormula (ESub (ECountA (data_col df' "Order ID")) (ENum 1))).
    cbn [eval]. rewrite (range_values_data_col _ _ _ _ Hio).
    change (plain_value (xtext "Order ID")) with (VText "Order ID").
    cbn [filter nonblank List.length is_num vnum]. split; [reflexivity|].
    rewrite Nat2Z.inj_succ. unfold Z.succ. rewrite inject_Z_plus.
    change (inject_Z 1) with 1. ring.
  - exact (dash_average_value df' Hs Ho).
  - intros Hne.
    assert (Hk : List.length (filter nonblank (map shown (series df' "Order ID"))) =
                 List.length (dropna (series df' "Order ID"))).
    { rewrite filter_map_length. unfold dropna. apply filter_length_ext_in.
      intros c Hc. apply nonblank_shown. now apply Hne. }
    rewrite Hk. split; [reflexivity|]. unfold nunique. split.
    + apply length_unique_le.
    + apply length_unique_all.
Qed.

End OrderCount.

(* ------------------------------------------------------------------ *)
(** ** The Category Trends sheet *)

Lemma in_write_rows {A : Type} (body : nat -> A -> worksheet) l start w :
  In w (write_rows start l body) ->
  exists i x, start <= i < start + List.length l /\ In w (body i x).
Proof.
  unfold write_rows, enumerate. intros H. apply in_flat_map in H.
  destruct H as [[i x] [Hin Hw]]. apply in_combine_l, in_seq in Hin.
  exists i, x. split; [lia | exact Hw].
Qed.













Lemma xtext_value s : s <> "" -> plain_value (xtext s) = VText s.
Proof.
  intros H. unfold xtext. destruct (String.eqb_spec s ""); [contradiction | reflexivity].
Qed.


Section CategoryTrends.
Variable parse : cell -> option (Z * Z * Z).





End CategoryTrends.

(* ------------------------------------------------------------------ *)
(** ** The findings page *)

Section TopAndMean.
Local Open Scope Q_scope.




End TopAndMean.


Lemma find_sheet_elsewhere lines i c :
  List.length lines <= i \/ 0 < c -> cell_at (find_sheet lines) i c = XBlank.
Proof.
  intros H. unfold cell_at, find_sheet. apply cell_from_untouched.
  intros w Hw. apply in_write_rows in Hw. destruct Hw as [j [x [Hj [<-|[]]]]].
  unfold hits. cbn [fst snd].
  destruct (Nat.eqb_spec j i), (Nat.eqb_spec 0 c); cbn [andb]; try reflexivity; lia.
Qed.






Section FindingsPage.
Variable parse : cell -> option (Z * Z * Z).




End FindingsPage.

(* ------------------------------------------------------------------ *)
(** ** The further statements at sample inputs *)

Lemma col_idx_to_excel_col_onto_sample :
  "XFD" <> "" /\ all_upper "XFD" = true /\
  col_idx_to_excel_col (excel_col_to_idx "XFD") = "XFD".
Proof.
  split; [discriminate|]. split; [reflexivity|].
  apply (col_idx_to_excel_col_onto "XFD"); [discriminate | reflexivity].
Defined.

Lemma column_letters_resolve_sample :
  has_column toy "Sales" = true /\
  nth (excel_col_to_idx (excel_col_letters toy "Sales")) (columns toy) "" = "Sales" /\
  range_values no_cells toy (data_col toy "Sales") =
    plain_value (xtext "Sales") :: map shown (series toy "Sales") /\
  (forall other, has_column toy other = true -> other <> "Sales" ->
     excel_col_letters toy other <> excel_col_letters toy "Sales").
Proof.
  split; [reflexivity|].
  apply (column_letters_resolve no_cells toy "Sales"). reflexivity.
Defined.

Lemma prepare_layout_sample :
  has_column toy "Order Date" = true /\
  has_column toy "Manager" = true /\
  columns (prepare no_parse toy) =
    columns toy ++ (if has_column toy "Year" then [] else ["Year"])
                ++ (if has_column toy "Month" then [] else ["Month"]) /\
  (forall c i, get_loc c (columns toy) = Some i ->
               get_loc c (columns (prepare no_parse toy)) = Some i) /\
  has_column (prepare no_parse toy) "Year" = true /\
  has_column (prepare no_parse toy) "Month" = true /\
  List.length (data (prepare no_parse toy)) = List.length (data toy).
Proof.
  split; [reflexivity|]. split; [reflexivity|].
  apply (prepare_layout no_parse toy); reflexivity.
Defined.



Lemma manager_ranks_sample :
  exists wb,
    report no_parse toy = Some wb /\
    1 <= 1 <= List.length (managers (wb_data wb)) /\
    let n := List.length (managers (wb_data wb)) in
    let sales r := vnum (calc wb sheet_mgr r 1) in
    let higher r :=
      List.length (filter (fun i => negb (Qle_bool (sales i) (sales r))) (seq 1 n)) in
    calc wb sheet_mgr 1 3 = VNum (inject_Z (Z.of_nat (1 + higher 1))) /\
    1 <= 1 + higher 1 <= n /\
    (higher 1 = 0 <-> forall i, 1 <= i <= n -> (sales i <= sales 1%nat)%Q) /\
    (forall r', 1 <= r' <= n -> (sales r' == sales 1%nat)%Q ->
                calc wb sheet_mgr r' 3 = calc wb sheet_mgr 1 3).
Proof.
  eexists. split; [vm_compute; reflexivity|].
  split; [vm_compute; lia|].
  apply (manager_ranks no_parse toy); [vm_compute; reflexivity | vm_compute; lia].
Defined.

Lemma first_and_last_year_sample :
  exists agg,
    compute_aggregates (prepare no_parse products_sample) = inr agg /\
    In (agg_first_year agg) (years (prepare no_parse products_sample)) /\
    In (agg_last_year agg) (years (prepare no_parse products_sample)) /\
    (forall y, In y (years (prepare no_parse products_sample)) ->
               (agg_first_year agg <= y <= agg_last_year agg)%Z) /\
    NoDup (years (prepare no_parse products_sample)) /\
    (forall y, In y (years (prepare no_parse products_sample)) <->
               In y (ints (series (prepare no_parse products_sample) "Year"))).
Proof.
  eexists. split; [vm_compute; reflexivity|].
  apply (first_and_last_year_bound_the_years (prepare no_parse products_sample)).
  vm_compute. reflexivity.
Defined.



Lemma total_managers_sample :
  exists wb,
    report no_parse unassigned_sample = Some wb /\
    (forall c, In c (series unassigned_sample "Manager") ->
               c = NaN \/ exists s, c = Str s) /\
    calc wb sheet_dash 3 1 =
      VNum (inject_Z (Z.of_nat (distinct_managers (wb_data wb)))) /\
    distinct_managers (wb_data wb) =
      List.length (managers (wb_data wb))
      + (if existsb (fun c => negb (is_named c)) (series unassigned_sample "Manager")
         then 1 else 0).
Proof.
  assert (Hall : forall c, In c (series unassigned_sample "Manager") ->
                           c = NaN \/ exists s, c = Str s).
  { intros c Hc. cbn in Hc. destruct Hc as [<-|[<-|[]]]; eauto. }
  eexists. split; [vm_compute; reflexivity|]. split; [exact Hall|].
  apply (total_managers_counts_the_empty_manager no_parse unassigned_sample);
    [vm_compute; reflexivity | exact Hall].
Defined.


Lemma dashboard_total_orders_sample :
  exists wb,
    report no_parse products_sample = Some wb /\
    let ids := series products_sample "Order ID" in
    let k := List.length (filter nonblank (map shown ids)) in
    (is_num (calc wb sheet_dash 2 1) = true /\
     (vnum (calc wb sheet_dash 2 1) == inject_Z (Z.of_nat k))%Q) /\
    (is_num (calc wb sheet_dash 4 1) = true /\
     (vnum (calc wb sheet_dash 4 1) ==
      total_sales_val (wb_data wb) / inject_Z (Z.of_nat (1 + k)))%Q) /\
    ((forall c, In c ids -> c <> Str "") ->
     k = List.length (dropna ids) /\
     total_orders (wb_data wb) <= k /\
     (total_orders (wb_data wb) = k <->
      ForallOrdPairs (fun a b => cell_eqb a b = false) (dropna ids))).
Proof.
  eexists. split; [vm_compute; reflexivity|].
  apply (dashboard_total_orders no_parse products_sample).
  vm_compute. reflexivity.
Defined.





